(** * s3_upload.py: configuration loading, upload and connectivity test

    A shallow embedding of [scripts/s3_upload.py].  Python strings are
    [string]s whose characters are the code points below 256 (the check mark
    of the two success lines stands by its UTF-8 bytes); dictionaries
    ([env_vars], [os.environ], the error response of a [ClientError]) are
    [gmap]s; the file system is a finite map from the paths of the readable
    text files to their contents; the boto3 client is an oracle held by the
    [World]; printing and the calls made to boto3 are recorded in a trace of
    [event]s.  Exceptions are the subclasses of [Exception] that boto3 and the
    file system raise; signals such as [KeyboardInterrupt] are left out.

    Two things the model takes as going well: a config file that exists can
    be opened and decoded (in the script [open] and the loop over the file
    stand outside every [try], so a file that cannot be read makes both
    operations raise before they look at the credentials), and standard
    output takes every line printed (the two success lines start with U+2705,
    which a standard output of another encoding refuses). *)

From Stdlib Require Import ssreflect Ascii String ZArith List Lia.
From stdpp Require Import base option list strings gmap fin_maps.

Local Open Scope string_scope.
Local Open Scope list_scope.

(** ** Python string primitives *)

Module Py.

(** [str.isspace] on one character, for the code points below 256:
    TAB, LF, VT, FF, CR, FS, GS, RS, US, space, NEL and NBSP. *)
Definition isspace (c : ascii) : bool :=
  match c with
  | "009" | "010" | "011" | "012" | "013"
  | "028" | "029" | "030" | "031" | "032"
  | "133" | "160" => true
  | _ => false
  end%char.

(** Truth value of a [str]: the empty string is falsy. *)
Definition nonempty (s : string) : bool :=
  match s with
  | EmptyString => false
  | String _ _ => true
  end.

(** [s.lstrip()] *)
Fixpoint lstrip (s : string) : string :=
  match s with
  | EmptyString => EmptyString
  | String c s' => if isspace c then lstrip s' else s
  end.

(** [s.rstrip()] *)
Fixpoint rstrip (s : string) : string :=
  match s with
  | EmptyString => EmptyString
  | String c s' =>
      let r := rstrip s' in
      if isspace c && negb (nonempty r) then EmptyString else String c r
  end.

(** [s.strip()]: the left index is advanced first, then the right one. *)
Definition strip (s : string) : string := rstrip (lstrip s).

(** [s.startswith(c)] for a one-character prefix. *)
Definition startswith (c : ascii) (s : string) : bool :=
  match s with
  | String c' _ => bool_decide (c' = c)
  | EmptyString => false
  end.

(** [s.partition(sep)] for a one-character separator: the part before the
    first [sep], the separator, the part after it; when [sep] does not occur,
    the whole string and two empty strings. *)
Fixpoint partition (sep : ascii) (s : string) : string * string * string :=
  match s with
  | EmptyString => (EmptyString, EmptyString, EmptyString)
  | String c s' =>
      if bool_decide (c = sep) then (EmptyString, String sep EmptyString, s')
      else let '(k, d, v) := partition sep s' in (String c k, d, v)
  end.

(** Iterating over a text file opened with universal newlines: the line
    terminators LF, CR and CR LF all end a line, and each yielded line
    carries its terminator as a single LF.  A last line without terminator
    is yielded as it is. *)
Fixpoint readlines (s : string) : list string :=
  match s with
  | EmptyString => []
  | String c s' =>
      if bool_decide (c = "010"%char) then String "010" EmptyString :: readlines s'
      else if bool_decide (c = "013"%char) then
        match s' with
        | String "010" s'' => String "010" EmptyString :: readlines s''
        | _ => String "010" EmptyString :: readlines s'
        end
      else
        match readlines s' with
        | [] => [String c EmptyString]
        | l :: ls => String c l :: ls
        end
  end.

(** [a or b] on values that are [None] or a [str]. *)
Definition or_ (a b : option string) : option string :=
  match a with
  | Some s => if nonempty s then a else b
  | None => b
  end.

(** Truth value of a value that is [None] or a [str]. *)
Definition truthy (a : option string) : bool :=
  match a with
  | Some s => nonempty s
  | None => false
  end.

(** [all(xs)] *)
Definition all (xs : list (option string)) : bool := forallb truthy xs.

(** [format(a)] inside an f-string, for a value that is [None] or a [str]. *)
Definition fmt (a : option string) : string :=
  match a with
  | Some s => s
  | None => "None"
  end.

(** [Path(p).name] on a POSIX system: the last of the components of [p]
    between slashes, the empty components and the components [.] left out;
    the empty string when there is none. *)
Fixpoint split_slash (s : string) : list string :=
  match s with
  | EmptyString => [EmptyString]
  | String c s' =>
      if bool_decide (c = "/"%char) then EmptyString :: split_slash s'
      else match split_slash s' with
           | [] => [String c EmptyString]
           | p :: ps => String c p :: ps
           end
  end.

Definition is_part (x : string) : bool :=
  nonempty x && negb (bool_decide (x = ".")).

Definition path_name (p : string) : string :=
  List.last (List.filter is_part (split_slash p)) EmptyString.

End Py.

(** ** The configuration loader *)

(** The body of the loop of [load_env_file]: one line of the file. *)
Definition process_line (env_vars : gmap string string) (line : string)
  : gmap string string :=
  let line := Py.strip line in
  if Py.nonempty line && negb (Py.startswith "#" line) then
    let '(key, _, value) := Py.partition "=" line in
    <[Py.strip key := Py.strip value]> env_vars
  else env_vars.

(** [load_env_file(env_path)], on a file system [fs] that maps the paths
    that exist to the text of the file. *)
Definition load_env_file (fs : gmap string string) (env_path : string)
  : gmap string string :=
  match fs !! env_path with
  | Some content => foldl process_line ∅ (Py.readlines content)
  | None => ∅
  end.

Definition default_env_path : string := "/opt/notes/.env".

(** ** Exceptions, events and the outcome of a call *)

(** The exceptions the script can meet, by the [except] clauses that tell
    them apart.  All are subclasses of [Exception].  A [ClientError] carries
    its [response] dictionary; every exception carries its [str(e)]. *)
Inductive exn : Type :=
  | FileNotFoundError (msg : string)
  | NoCredentialsError (msg : string)
  | ClientError (response : gmap string (gmap string string)) (msg : string)
  | OtherException (class_name : string) (msg : string).

(** [str(e)] *)
Definition str (e : exn) : string :=
  match e with
  | FileNotFoundError m | NoCredentialsError m | ClientError _ m
  | OtherException _ m => m
  end.

(** What the script does to the outside: a line printed on standard output,
    [boto3.client(...)], [s3_client.upload_file(...)] and
    [s3_client.head_bucket(...)]. *)
Inductive event : Type :=
  | Print (line : string)
  | Boto3Client (service : string) (aws_access_key_id aws_secret_access_key
                 endpoint_url : option string) (region_name : string)
  | UploadFile (file_path : string) (bucket : option string) (key : string)
               (extra_args : list (string * string))
  | HeadBucket (bucket : option string).

(** A computation: the events it produced, and either the exception it
    raised or the value it returned. *)
Definition M (A : Type) : Type := list event * (exn + A).

Definition ret {A} (a : A) : M A := ([], inr a).

Definition raise {A} (e : exn) : M A := ([], inl e).

Definition bind {A B} (m : M A) (k : A → M B) : M B :=
  match m with
  | (t, inl e) => (t, inl e)
  | (t, inr a) => let '(t', r) := k a in (t ++ t', r)
  end.

Global Instance M_ret : MRet M := @ret.
Global Instance M_bind : MBind M := λ A B k m, bind m k.

Definition print (line : string) : M unit := ([Print line], inr ()).

(** [try: body; k  except ...: handler], where every handler ends in a
    [return]: [handler e] is [None] when no [except] clause matches [e], and
    the exception then goes on to the caller. *)
Definition try_with {A B} (body : M A) (handler : exn → option (M B))
    (k : A → M B) : M B :=
  match body with
  | (t, inr a) => let '(t', r) := k a in (t ++ t', r)
  | (t, inl e) =>
      match handler e with
      | Some h => let '(t', r) := h in (t ++ t', r)
      | None => (t, inl e)
      end
  end.

(** ** The world outside the script *)

(** An S3 client object: what its two methods answer, [None] for a normal
    return and [Some e] for a raised exception. *)
Record S3Client : Type := mkS3Client {
  upload_file_impl :
    string → option string → string → list (string * string) → option exn;
  head_bucket_impl : option string → option exn
}.

Record World : Type := mkWorld {
  fs : gmap string string;          (* existing files and their text *)
  environ : gmap string string;     (* os.environ *)
  boto3_client_impl :               (* boto3.client *)
    string → option string → option string → option string → string →
    exn + S3Client
}.

(** [os.getenv(key)] *)
Definition getenv (w : World) (key : string) : option string := environ w !! key.

Definition boto3_client (w : World) (service : string)
    (aws_access_key_id aws_secret_access_key endpoint_url : option string)
    (region_name : string) : M S3Client :=
  ([Boto3Client service aws_access_key_id aws_secret_access_key endpoint_url
      region_name],
   boto3_client_impl w service aws_access_key_id aws_secret_access_key
     endpoint_url region_name).

Definition upload_file (c : S3Client) (file_path : string)
    (bucket : option string) (key : string)
    (extra_args : list (string * string)) : M unit :=
  ([UploadFile file_path bucket key extra_args],
   match upload_file_impl c file_path bucket key extra_args with
   | Some e => inl e
   | None => inr ()
   end).

Definition head_bucket (c : S3Client) (bucket : option string) : M unit :=
  ([HeadBucket bucket],
   match head_bucket_impl c bucket with
   | Some e => inl e
   | None => inr ()
   end).

(** ** Configuration resolution *)

Record Config : Type := mkConfig {
  access_key : option string;
  secret_key : option string;
  bucket_name : option string;
  endpoint_url : option string;
  region : string
}.

(** The first lines of [upload_to_s3] and of [test_s3_connection], which are
    the same text in both. *)
Definition read_config (w : World) : Config :=
  let env := load_env_file (fs w) default_env_path in
  {| access_key := Py.or_ (env !! "S3_ACCESS_KEY_ID") (getenv w "S3_ACCESS_KEY_ID");
     secret_key := Py.or_ (env !! "S3_SECRET_ACCESS_KEY") (getenv w "S3_SECRET_ACCESS_KEY");
     bucket_name := Py.or_ (env !! "S3_BUCKET_NAME") (getenv w "S3_BUCKET_NAME");
     endpoint_url := Py.or_ (env !! "S3_ENDPOINT_URL") (getenv w "S3_ENDPOINT_URL");
     region := default "ru-central1" (env !! "S3_REGION") |}.

(** ** The two operations *)

Definition upload_to_s3 (w : World) (file_path : string) (s3_prefix : string)
  : M bool :=
  let cfg := read_config w in
  if negb (Py.all [access_key cfg; secret_key cfg; bucket_name cfg]) then
    print "ERROR: S3 credentials not configured in .env" ;;
    ret false
  else
    try_with
      (boto3_client w "s3" (access_key cfg) (secret_key cfg) (endpoint_url cfg)
         (region cfg))
      (λ e, Some (print ("ERROR: Failed to create S3 client: " +:+ str e) ;;
                  ret false))
      (λ s3_client,
        let file_name := Py.path_name file_path in
        let s3_key := s3_prefix +:+ file_name in
        try_with
          (print ("Uploading " +:+ file_name +:+ " to s3://"
                  +:+ Py.fmt (bucket_name cfg) +:+ "/" +:+ s3_key +:+ "...") ;;
           upload_file s3_client file_path (bucket_name cfg) s3_key
             [("StorageClass", "STANDARD")] ;;
           print ("✅ Upload successful: s3://" +:+ Py.fmt (bucket_name cfg)
                  +:+ "/" +:+ s3_key) ;;
           ret true)
          (λ e,
            match e with
            | FileNotFoundError _ =>
                Some (print ("ERROR: File not found: " +:+ file_path) ;;
                      ret false)
            | NoCredentialsError _ =>
                Some (print "ERROR: Invalid S3 credentials" ;; ret false)
            | ClientError _ _ =>
                Some (print ("ERROR: S3 upload failed: " +:+ str e) ;;
                      ret false)
            | OtherException _ _ => None
            end)
          ret).

(** [e.response.get('Error', {}).get('Code', 'Unknown')] *)
Definition error_code (response : gmap string (gmap string string)) : string :=
  default "Unknown" (default ∅ (response !! "Error") !! "Code").

Definition test_s3_connection (w : World) : M bool :=
  let cfg := read_config w in
  if negb (Py.all [access_key cfg; secret_key cfg; bucket_name cfg]) then
    print "ERROR: S3 credentials not configured" ;;
    ret false
  else
    try_with
      (s3_client ← boto3_client w "s3" (access_key cfg) (secret_key cfg)
                     (endpoint_url cfg) (region cfg);
       head_bucket s3_client (bucket_name cfg) ;;
       print ("✅ S3 connection successful: bucket '"
              +:+ Py.fmt (bucket_name cfg) +:+ "' is accessible") ;;
       ret true)
      (λ e,
        match e with
        | ClientError response _ =>
            Some (let error_code := error_code response in
                  (if bool_decide (error_code = "404") then
                     print ("ERROR: Bucket '" +:+ Py.fmt (bucket_name cfg)
                            +:+ "' not found")
                   else if bool_decide (error_code = "403") then
                     print ("ERROR: Access denied to bucket '"
                            +:+ Py.fmt (bucket_name cfg) +:+ "'")
                   else
                     print ("ERROR: S3 connection failed: " +:+ str e)) ;;
                  ret false)
        | _ =>
            Some (print ("ERROR: Failed to connect to S3: " +:+ str e) ;;
                  ret false)
        end)
      ret.

(** ** The command line *)

(** [sys.exit(code)]: the program ends here with this status. *)
Definition sys_exit (code : Z) : M Z := ret code.

(** The [__main__] block on [sys.argv]. *)
Definition main (w : World) (argv : list string) : M Z :=
  if (length argv <? 2)%nat then
    print "Usage: s3_upload.py <file_path> [s3_prefix]" ;;
    print "       s3_upload.py --test" ;;
    sys_exit 1%Z
  else if bool_decide (nth 1 argv "" = "--test") then
    success ← test_s3_connection w;
    sys_exit (if success : bool then 0%Z else 1%Z)
  else
    let file_path := nth 1 argv "" in
    let s3_prefix := if (2 <? length argv)%nat then nth 2 argv "" else "" in
    success ← upload_to_s3 w file_path s3_prefix;
    sys_exit (if success : bool then 0%Z else 1%Z).

(** The status the process ends with: the argument of [sys.exit], and 1 when
    an exception reaches the top level (the interpreter prints the traceback
    on standard error and exits with status 1). *)
Definition exit_status (r : exn + Z) : Z :=
  match r with
  | inr code => code
  | inl _ => 1%Z
  end.

(** ** The words of the specification *)

Module Spec.

(** A string made of whitespace only (possibly empty). *)
Fixpoint blank (s : string) : bool :=
  match s with
  | EmptyString => true
  | String c s' => Py.isspace c && blank s'
  end.

(** [c in s] *)
Fixpoint contains (c : ascii) (s : string) : bool :=
  match s with
  | EmptyString => false
  | String c' s' => bool_decide (c' = c) || contains c s'
  end.

(** The last character of a string, if there is one. *)
Fixpoint last_char (s : string) : option ascii :=
  match s with
  | EmptyString => None
  | String c EmptyString => Some c
  | String _ s' => last_char s'
  end.

(** Trimmed: neither the first nor the last character is whitespace. *)
Definition trimmed (s : string) : Prop :=
  match s with
  | EmptyString => True
  | String c _ => Py.isspace c = false ∧
                  ∃ d, last_char s = Some d ∧ Py.isspace d = false
  end.

(** "Lines that are empty or begin with [#] after trimming are skipped." *)
Definition skipped (line : string) : bool :=
  let t := Py.strip line in
  negb (Py.nonempty t) || Py.startswith "#" t.

(** "splitting on the first [=]": what stands before it, and after it. *)
Fixpoint before_first (sep : ascii) (s : string) : string :=
  match s with
  | EmptyString => EmptyString
  | String c s' =>
      if bool_decide (c = sep) then EmptyString
      else String c (before_first sep s')
  end.

Fixpoint after_first (sep : ascii) (s : string) : string :=
  match s with
  | EmptyString => EmptyString
  | String c s' =>
      if bool_decide (c = sep) then s' else after_first sep s'
  end.

(** The entry a line contributes: none for a skipped line, else the
    trimmed key and the trimmed value. *)
Definition entry (line : string) : option (string * string) :=
  if skipped line then None
  else
    let t := Py.strip line in
    Some (Py.strip (before_first "=" t), Py.strip (after_first "=" t)).

(** The mapping of a file, line by line; of two entries with one key the
    later one stands. *)
Definition mapping (lines : list string) : gmap string string :=
  list_to_map (reverse (omap entry lines)).

(** The base name of a path as the text after its last slash. *)
Definition basename (p : string) : string :=
  List.last (Py.split_slash p) EmptyString.

(** The three required keys. *)
Definition required_keys : list string :=
  ["S3_ACCESS_KEY_ID"; "S3_SECRET_ACCESS_KEY"; "S3_BUCKET_NAME"].

(** A value that is missing or empty. *)
Definition missing (v : option string) : Prop := v = None ∨ v = Some "".

(** The operation the command line asks for: none without argument, the
    connectivity test for [--test], else the upload of the first argument
    under the second one as prefix (empty when absent). *)
Definition dispatched (w : World) (argv : list string) : option (M bool) :=
  match argv with
  | _ :: a :: rest =>
      if bool_decide (a = "--test") then Some (test_s3_connection w)
      else Some (upload_to_s3 w a (hd "" rest))
  | _ => None
  end.

Definition succeeded (op : M bool) : bool :=
  match op with
  | (_, inr true) => true
  | _ => false
  end.

Definition is_upload (ev : event) : bool :=
  match ev with
  | UploadFile _ _ _ _ => true
  | _ => false
  end.

(** An [upload_file] call for the file at the given path. *)
Definition uploads_path (path : string) (ev : event) : bool :=
  match ev with
  | UploadFile file_path _ _ _ => bool_decide (file_path = path)
  | _ => false
  end.

End Spec.

(** ** Worlds used in the examples below *)

Definition nl : string := String "010" "".

(** A client whose calls all succeed. *)
Definition ok_client : S3Client := mkS3Client (λ _ _ _ _, None) (λ _, None).

(** A client whose [head_bucket] raises a [ClientError] with the given code. *)
Definition head_error_client (code : string) : S3Client :=
  mkS3Client (λ _ _ _ _, None)
    (λ _, Some (ClientError {[ "Error" := {[ "Code" := code ]} ]}
                  ("An error occurred (" +:+ code +:+ ")"))).

(** A client whose two methods raise the given exception. *)
Definition failing_client (e : exn) : S3Client :=
  mkS3Client (λ _ _ _ _, Some e) (λ _, Some e).

(** botocore's error for an endpoint that cannot be reached: a
    [BotoCoreError], not a [ClientError]. *)
Definition endpoint_connection_error : exn :=
  OtherException "EndpointConnectionError"
    "Could not connect to the endpoint URL".

Definition credentials : gmap string string :=
  {[ "S3_ACCESS_KEY_ID" := "AK"; "S3_SECRET_ACCESS_KEY" := "SK";
     "S3_BUCKET_NAME" := "backups" ]}.

(** No config file; the credentials and a region in the environment. *)
Definition w_environ_only : World :=
  mkWorld ∅ (<["S3_REGION" := "us-east-1"]> credentials)
    (λ _ _ _ _ _, inr ok_client).

(** A config file with the three required keys. *)
Definition env_text : string :=
  "# storage" +:+ nl +:+ nl +:+
  "S3_ACCESS_KEY_ID = AK" +:+ nl +:+
  "S3_SECRET_ACCESS_KEY=SK" +:+ nl +:+
  "S3_BUCKET_NAME=backups" +:+ nl.

Definition w_file (c : S3Client) : World :=
  mkWorld {[ default_env_path := env_text ]} ∅ (λ _ _ _ _ _, inr c).

(** A config file without bucket name, and an empty one in the environment. *)
Definition w_no_bucket : World :=
  mkWorld {[ default_env_path :=
               "S3_ACCESS_KEY_ID=AK" +:+ nl +:+ "S3_SECRET_ACCESS_KEY=SK" +:+ nl ]}
    {[ "S3_BUCKET_NAME" := "" ]} (λ _ _ _ _ _, inr ok_client).

(** ** Shapes of lines, files, keys and traces *)

Module Shape.

(** No line feed and no carriage return. *)
Definition line_free (s : string) : bool :=
  negb (Spec.contains "010" s) && negb (Spec.contains "013" s).

(** [Spec.trimmed] as a test. *)
Definition is_trimmed (s : string) : bool :=
  match s with
  | EmptyString => true
  | String c _ =>
      negb (Py.isspace c)
      && match Spec.last_char s with
         | Some d => negb (Py.isspace d)
         | None => false
         end
  end.

(** A key as one writes it in a config file: not empty, trimmed, not a
    comment, without [=] and on one line. *)
Definition good_key (k : string) : bool :=
  Py.nonempty k && is_trimmed k && negb (Py.startswith "#" k)
  && negb (Spec.contains "=" k) && line_free k.

(** A value as one writes it: trimmed and on one line. *)
Definition good_value (v : string) : bool := is_trimmed v && line_free v.

Definition good_entry (kv : string * string) : bool :=
  good_key kv.1 && good_value kv.2.

(** The text of the lines [bodies], each closed by the terminator [t]. *)
Definition join_lines (t : string) (bodies : list string) : string :=
  foldr (λ body rest, body +:+ t +:+ rest) "" bodies.

(** The line [KEY=VALUE] of an entry. *)
Definition entry_line (kv : string * string) : string :=
  kv.1 +:+ String "=" kv.2.

(** The config file of a list of entries, one [KEY=VALUE] line each. *)
Definition render (entries : list (string * string)) : string :=
  join_lines nl (entry_line <$> entries).

Definition crlf : string := String "013" (String "010" "").

(** The key of the entry of a line, if it has one. *)
Definition key_of (line : string) : option string := fst <$> Spec.entry line.

Definition is_client (ev : event) : bool :=
  match ev with
  | Boto3Client _ _ _ _ _ => true
  | _ => false
  end.

Definition is_head (ev : event) : bool :=
  match ev with
  | HeadBucket _ => true
  | _ => false
  end.

(** How many events of a trace pass a test. *)
Definition count (f : event → bool) (trace : list event) : nat :=
  length (List.filter f trace).

(** The required values are all there. *)
Definition configured (w : World) : bool :=
  Py.all [access_key (read_config w); secret_key (read_config w);
          bucket_name (read_config w)].

(** "trimmed of surrounding whitespace": [t] is [s] without the whitespace
    that stands before and after it. *)
Definition trim_of (s t : string) : Prop :=
  Spec.trimmed t
  ∧ ∃ a b, s = a +:+ t +:+ b ∧ Spec.blank a = true ∧ Spec.blank b = true.

(** "splitting on the first [sep]": [k] stands before the first [sep] of
    [t] and [v] after it; where [t] holds no [sep], [k] is [t] and [v] is
    empty. *)
Definition cut_at (sep : ascii) (t k v : string) : Prop :=
  (Spec.contains sep k = false ∧ t = k +:+ String sep v)
  ∨ (Spec.contains sep t = false ∧ k = t ∧ v = "").

(** An [upload_file] call for a file of the given name, whatever the
    directory. *)
Definition uploads_named (name : string) (ev : event) : bool :=
  match ev with
  | UploadFile file_path _ _ _ => bool_decide (Py.path_name file_path = name)
  | _ => false
  end.

End Shape.

(** A config file that gives the same key twice. *)
Definition twice_text : string :=
  "A=1" +:+ nl +:+ "A=2" +:+ nl +:+ "B=3" +:+ nl.

(** A world with every key in the file and other values in the environment. *)
Definition w_both : World :=
  mkWorld
    {[ default_env_path :=
         Shape.render [("S3_ACCESS_KEY_ID", "AK"); ("S3_SECRET_ACCESS_KEY", "SK");
                       ("S3_BUCKET_NAME", "backups");
                       ("S3_ENDPOINT_URL", "https://storage.example");
                       ("S3_REGION", "us-west-1")] ]}
    {[ "S3_ACCESS_KEY_ID" := "AK2"; "S3_SECRET_ACCESS_KEY" := "SK2";
       "S3_BUCKET_NAME" := "other"; "S3_ENDPOINT_URL" := "https://env.example";
       "S3_REGION" := "eu-west-1" ]}
    (λ _ _ _ _ _, inr ok_client).

(** A world whose file gives the keys empty values. *)
Definition w_empty_values : World :=
  mkWorld
    {[ default_env_path :=
         "S3_ACCESS_KEY_ID=" +:+ nl +:+ "S3_SECRET_ACCESS_KEY=" +:+ nl +:+
         "S3_BUCKET_NAME=" +:+ nl +:+ "S3_ENDPOINT_URL=" +:+ nl +:+
         "S3_REGION=" +:+ nl ]}
    (<["S3_REGION" := "us-east-1"]> credentials)
    (λ _ _ _ _ _, inr ok_client).

(** A world whose [boto3.client] raises. *)
Definition w_no_client (e : exn) : World :=
  mkWorld {[ default_env_path := env_text ]} ∅ (λ _ _ _ _ _, inl e).

(** * Properties *)

(** ** Strings *)

Example readlines_ex :
  Py.readlines ("A=1" +:+ String "013" (String "010" "# c") +:+ String "010" (String "010" "B = 2"))
  = ["A=1" +:+ String "010" ""; "# c" +:+ String "010" ""; String "010" ""; "B = 2"].
Proof. vm_compute. reflexivity. Qed.

Example path_name_ex : Py.path_name "/tmp/backup.tar.gz" = "backup.tar.gz".
Proof. vm_compute. reflexivity. Qed.

Example path_name_ex2 : Py.path_name "/tmp/dir/./" = "dir".
Proof. vm_compute. reflexivity. Qed.

Lemma str_app_nil_l (s : string) : "" +:+ s = s.
Proof. reflexivity. Qed.

Lemma str_app_cons (c : ascii) (s t : string) :
  String c s +:+ t = String c (s +:+ t).
Proof. reflexivity. Qed.

Lemma str_app_nil_r (s : string) : s +:+ "" = s.
Proof. induction s as [|c s IH]; [done|]. by rw str_app_cons IH. Qed.

Lemma str_app_assoc (s t u : string) : (s +:+ t) +:+ u = s +:+ (t +:+ u).
Proof. induction s as [|c s IH]; [done|]. by rw !str_app_cons IH. Qed.

Lemma nonempty_true (s : string) : Py.nonempty s = true ↔ s ≠ "".
Proof. by destruct s. Qed.

Lemma nonempty_false (s : string) : Py.nonempty s = false ↔ s = "".
Proof. by destruct s. Qed.

(** [lstrip] removes a blank prefix and leaves a string that does not start
    with whitespace. *)
Lemma lstrip_prefix (s : string) :
  ∃ a, s = a +:+ Py.lstrip s ∧ Spec.blank a = true.
Proof.
  induction s as [|c s [a [Ha Hb]]]; [by exists ""|]. simpl.
  destruct (Py.isspace c) eqn:Hc.
  - exists (String c a). rw str_app_cons -Ha. split; [done|]. by rw /= Hc Hb.
  - by exists "".
Qed.

Lemma lstrip_head (s : string) :
  match Py.lstrip s with
  | EmptyString => True
  | String c _ => Py.isspace c = false
  end.
Proof.
  induction s as [|c s IH]; [done|]. simpl.
  destruct (Py.isspace c) eqn:Hc; [done|]. by simpl.
Qed.

Lemma lstrip_id (c : ascii) (s : string) :
  Py.isspace c = false → Py.lstrip (String c s) = String c s.
Proof. intros Hc. by rw /= Hc. Qed.

Lemma rstrip_idemp (s : string) : Py.rstrip (Py.rstrip s) = Py.rstrip s.
Proof.
  induction s as [|c s IH]; [done|]. simpl.
  destruct (Py.isspace c && negb (Py.nonempty (Py.rstrip s))) eqn:E; [done|].
  by rw /= IH E.
Qed.

Lemma rstrip_head (c : ascii) (s : string) :
  Py.isspace c = false → Py.rstrip (String c s) = String c (Py.rstrip s).
Proof. intros Hc. by rw /= Hc. Qed.

(** [rstrip] removes a blank suffix. *)
Lemma rstrip_suffix (s : string) :
  ∃ b, s = Py.rstrip s +:+ b ∧ Spec.blank b = true.
Proof.
  induction s as [|c s [b [Hb Hbl]]]; [by exists ""|]. simpl.
  destruct (Py.isspace c) eqn:Hc; simpl.
  - destruct (Py.rstrip s) eqn:Hr; simpl.
    + exists (String c s). split; [done|]. rw /= Hc. by rw Hb.
    + exists b. by rw str_app_cons -Hb.
  - exists b. by rw str_app_cons -Hb.
Qed.

(** What [rstrip] leaves does not end with whitespace. *)
Lemma rstrip_last (s : string) :
  match Spec.last_char (Py.rstrip s) with
  | Some d => Py.isspace d = false
  | None => Py.rstrip s = ""
  end.
Proof.
  induction s as [|c s IH]; [done|]. simpl.
  destruct (Py.rstrip s) as [|d r] eqn:Hr.
  - destruct (Py.isspace c) eqn:Hc; simpl; done.
  - rw andb_false_r. simpl in *. destruct r as [|a r]; [done|].
    destruct (Spec.last_char (String a r)); [done|discriminate].
Qed.

(** [strip] is idempotent: a trimmed line stays as it is. *)
Lemma strip_idemp (s : string) : Py.strip (Py.strip s) = Py.strip s.
Proof.
  rw /Py.strip. pose proof (lstrip_head s) as Hh.
  destruct (Py.lstrip s) as [|c t]; [done|].
  rw (rstrip_head c t Hh) (lstrip_id c _ Hh) (rstrip_head c _ Hh).
  by rw rstrip_idemp.
Qed.

(** [strip] takes a blank prefix and a blank suffix away and leaves a
    trimmed string. *)
Lemma strip_spec (s : string) :
  (∃ a b, s = a +:+ Py.strip s +:+ b ∧ Spec.blank a = true ∧ Spec.blank b = true)
  ∧ Spec.trimmed (Py.strip s).
Proof.
  split.
  - destruct (lstrip_prefix s) as [a [Ha Hba]].
    destruct (rstrip_suffix (Py.lstrip s)) as [b [Hb Hbb]].
    exists a, b. rw /Py.strip -Hb -Ha. done.
  - rw /Py.strip. pose proof (lstrip_head s) as Hh.
    pose proof (rstrip_last (Py.lstrip s)) as Hl.
    destruct (Py.lstrip s) as [|c t]; [done|].
    rw (rstrip_head c t Hh). rw (rstrip_head c t Hh) in Hl.
    split; [done|].
    destruct (Spec.last_char (String c (Py.rstrip t))) as [d|]; [eauto|done].
Qed.

(** [partition] cuts at the first separator. *)
Lemma partition_split (sep : ascii) (s : string) :
  Py.partition sep s =
  (Spec.before_first sep s,
   if Spec.contains sep s then String sep "" else "",
   Spec.after_first sep s).
Proof.
  induction s as [|c s IH]; [done|]. simpl.
  case_bool_decide; [done|]. by rw IH.
Qed.

Lemma partition_found (sep : ascii) (k v : string) :
  Spec.contains sep k = false →
  Py.partition sep (k +:+ String sep v) = (k, String sep "", v).
Proof.
  induction k as [|c k IH]; intros Hk.
  - rw str_app_nil_l /=. by rw bool_decide_true.
  - simpl in Hk. apply orb_false_elim in Hk as [Hc Hk].
    rw str_app_cons /= Hc. by rw (IH Hk).
Qed.

Lemma partition_not_found (sep : ascii) (s : string) :
  Spec.contains sep s = false → Py.partition sep s = (s, "", "").
Proof.
  induction s as [|c s IH]; [done|]. simpl. intros [Hc Hs]%orb_false_elim.
  by rw Hc (IH Hs).
Qed.

(** A line of text followed by a line feed is one line of the file. *)
Lemma readlines_line (l rest : string) :
  Spec.contains "010" l = false → Spec.contains "013" l = false →
  Py.readlines (l +:+ nl +:+ rest) = (l +:+ nl) :: Py.readlines rest.
Proof.
  induction l as [|c l IH]; [done|]. simpl.
  intros [Hc1 Hl1]%orb_false_elim [Hc2 Hl2]%orb_false_elim.
  rw !str_app_cons /= Hc1 Hc2. by rw (IH Hl1 Hl2).
Qed.

(** The last line of a file needs no terminator. *)
Lemma readlines_last (l : string) :
  l ≠ "" → Spec.contains "010" l = false → Spec.contains "013" l = false →
  Py.readlines l = [l].
Proof.
  induction l as [|c l IH]; [done|]. simpl.
  intros _ [Hc1 Hl1]%orb_false_elim [Hc2 Hl2]%orb_false_elim.
  rw Hc1 Hc2. destruct l as [|d l]; [done|]. by rw IH.
Qed.

(** ** Path names *)

Lemma split_slash_not_nil (p : string) : Py.split_slash p ≠ [].
Proof.
  induction p as [|c p IH]; [done|]. simpl.
  case_bool_decide; [done|]. by destruct (Py.split_slash p).
Qed.

Lemma last_cons_ne {A} (x : A) (l : list A) (d : A) :
  l ≠ [] → List.last (x :: l) d = List.last l d.
Proof. by destruct l. Qed.

Lemma last_app_ne {A} (l k : list A) (d : A) :
  k ≠ [] → List.last (l ++ k) d = List.last k d.
Proof.
  intros Hk. induction l as [|x l IH]; [done|].
  rw -app_comm_cons last_cons_ne; [by destruct l, k|done].
Qed.

Lemma filter_last_ne {A} (f : A → bool) (x : A) (l : list A) (d : A) :
  f (List.last (x :: l) d) = true → List.filter f (x :: l) ≠ [].
Proof.
  revert x. induction l as [|y l IH]; intros x Hf.
  - simpl in *. by rw Hf.
  - rw last_cons_ne in Hf; [done|].
    change (List.filter f (x :: y :: l))
      with (if f x then x :: List.filter f (y :: l) else List.filter f (y :: l)).
    destruct (f x); [done|]. by apply IH.
Qed.

Lemma last_filter {A} (f : A → bool) (l : list A) (d : A) :
  f (List.last l d) = true →
  List.last (List.filter f l) d = List.last l d.
Proof.
  induction l as [|x l IH]; [done|]. intros Hf.
  destruct l as [|y l].
  - simpl in *. by rw Hf.
  - rw last_cons_ne in Hf; [done|]. rw (last_cons_ne x); [done|].
    change (List.filter f (x :: y :: l))
      with (if f x then x :: List.filter f (y :: l) else List.filter f (y :: l)).
    destruct (f x); [|by apply IH].
    rw last_cons_ne; [by apply (filter_last_ne f y l d)|by apply IH].
Qed.

(** Where the text after the last slash is a name (not empty and not [.]),
    it is the name [Path] gives. *)
Lemma path_name_basename (p : string) :
  Py.is_part (Spec.basename p) = true → Py.path_name p = Spec.basename p.
Proof. intros Hp. by apply last_filter. Qed.

Lemma split_slash_no_slash (n : string) :
  Spec.contains "/" n = false → Py.split_slash n = [n].
Proof.
  induction n as [|c n IH]; [done|]. simpl. intros [Hc Hn]%orb_false_elim.
  by rw Hc (IH Hn).
Qed.

Lemma split_slash_app (a b : string) :
  Py.split_slash (a +:+ String "/" b) = Py.split_slash a ++ Py.split_slash b.
Proof.
  induction a as [|c a IH]; [done|]. rw str_app_cons /= IH.
  case_bool_decide; [done|].
  pose proof (split_slash_not_nil a). by destruct (Py.split_slash a).
Qed.

(** The text after the last slash of [dir/name] is [name]. *)
Lemma basename_app (dir name : string) :
  Spec.contains "/" name = false →
  Spec.basename (dir +:+ String "/" name) = name.
Proof.
  intros Hn. rw /Spec.basename split_slash_app last_app_ne.
  - apply split_slash_not_nil.
  - by rw (split_slash_no_slash _ Hn).
Qed.

(** ** The configuration loader *)

(** One turn of the loop adds the entry of the line, if it has one. *)
Lemma process_line_entry (env_vars : gmap string string) (line : string) :
  process_line env_vars line =
  match Spec.entry line with
  | Some (k, v) => <[k := v]> env_vars
  | None => env_vars
  end.
Proof.
  rw /process_line /Spec.entry /Spec.skipped partition_split.
  by destruct (Py.nonempty (Py.strip line)), (Py.startswith "#" (Py.strip line)).
Qed.

Lemma foldl_process_line (lines : list string) :
  foldl process_line ∅ lines = Spec.mapping lines.
Proof.
  induction lines as [|line lines IH] using rev_ind; [done|].
  rw foldl_snoc IH process_line_entry /Spec.mapping omap_app reverse_app /=.
  by destruct (Spec.entry line) as [[k v]|].
Qed.

Lemma load_env_file_exists (fs : gmap string string) (path content : string) :
  fs !! path = Some content →
  load_env_file fs path = Spec.mapping (Py.readlines content).
Proof. intros H. by rw /load_env_file H foldl_process_line. Qed.

Lemma mapping_lookup (lines : list string) (k v : string) :
  Spec.mapping lines !! k = Some v →
  ∃ line, line ∈ lines ∧ Spec.entry line = Some (k, v).
Proof.
  intros H%elem_of_list_to_map_2%elem_of_reverse%list_elem_of_omap.
  destruct H as (line & Hin & He). eauto.
Qed.

Lemma mapping_dom (lines : list string) (line k v : string) :
  line ∈ lines → Spec.entry line = Some (k, v) →
  is_Some (Spec.mapping lines !! k).
Proof.
  intros Hin He. apply not_eq_None_Some. intros Hn.
  apply not_elem_of_list_to_map in Hn. apply Hn.
  apply list_elem_of_fmap. exists (k, v). split; [done|].
  apply elem_of_reverse, list_elem_of_omap. eauto.
Qed.

(** A skipped line has no entry: with or without it the mapping is the same. *)
Lemma mapping_skip (before after : list string) (line : string) :
  Spec.skipped line = true →
  Spec.mapping (before ++ line :: after) = Spec.mapping (before ++ after).
Proof.
  intros Hs. rw /Spec.mapping !omap_app /= /Spec.entry Hs. done.
Qed.

(** The entry of a line [key=value]: cut at the first [=], both sides
    trimmed. *)
Lemma entry_key_value (line k v : string) :
  Spec.skipped line = false →
  Py.strip line = k +:+ String "=" v → Spec.contains "=" k = false →
  Spec.entry line = Some (Py.strip k, Py.strip v).
Proof.
  intros Hs Hl Hk. rw /Spec.entry Hs.
  pose proof (partition_split "=" (k +:+ String "=" v)) as Hp.
  rw (partition_found _ _ _ Hk) in Hp. injection Hp as H1 _ H3.
  by rw Hl -H1 -H3.
Qed.

Example load_env_file_ex :
  load_env_file {[ default_env_path := env_text ]} default_env_path
  = {[ "S3_ACCESS_KEY_ID" := "AK"; "S3_SECRET_ACCESS_KEY" := "SK";
       "S3_BUCKET_NAME" := "backups" ]}.
Proof. vm_compute. reflexivity. Qed.

Example load_env_file_junk_ex :
  load_env_file {[ default_env_path := "A=1" +:+ nl +:+ "  JUNK " +:+ nl ]}
    default_env_path
  = {[ "A" := "1"; "JUNK" := "" ]}.
Proof. vm_compute. reflexivity. Qed.

(** A file that does not exist gives the empty mapping. *)
Lemma load_env_file_missing (fs : gmap string string) (path : string) :
  fs !! path = None → load_env_file fs path = ∅.
Proof. intros H. by rw /load_env_file H. Qed.

(** ** Configuration resolution *)

Lemma or_absent (b : option string) : Py.or_ None b = b.
Proof. done. Qed.

Lemma or_missing (a b : option string) :
  Spec.missing a → Py.or_ a b = b.
Proof. by intros [-> | ->]. Qed.

Lemma truthy_missing (a : option string) :
  Spec.missing a → Py.truthy a = false.
Proof. by intros [-> | ->]. Qed.

(** The four keys read with [or os.getenv(...)]: a key that the file does
    not hold is read from the environment. *)
Lemma read_config_fallback (w : World) :
  let env := load_env_file (fs w) default_env_path in
  (env !! "S3_ACCESS_KEY_ID" = None →
     access_key (read_config w) = getenv w "S3_ACCESS_KEY_ID")
  ∧ (env !! "S3_SECRET_ACCESS_KEY" = None →
     secret_key (read_config w) = getenv w "S3_SECRET_ACCESS_KEY")
  ∧ (env !! "S3_BUCKET_NAME" = None →
     bucket_name (read_config w) = getenv w "S3_BUCKET_NAME")
  ∧ (env !! "S3_ENDPOINT_URL" = None →
     endpoint_url (read_config w) = getenv w "S3_ENDPOINT_URL").
Proof. rw /read_config /=. by repeat split; intros ->. Qed.

(** The region is read from the file alone: the environment has no part
    in it. *)
Lemma read_config_region (w : World) :
  region (read_config w)
  = default "ru-central1" (load_env_file (fs w) default_env_path !! "S3_REGION").
Proof. done. Qed.

(** Without config file: four keys from the environment, the region from
    its default. *)
Lemma read_config_missing_file (w : World) :
  fs w !! default_env_path = None →
  read_config w
  = {| access_key := getenv w "S3_ACCESS_KEY_ID";
       secret_key := getenv w "S3_SECRET_ACCESS_KEY";
       bucket_name := getenv w "S3_BUCKET_NAME";
       endpoint_url := getenv w "S3_ENDPOINT_URL";
       region := "ru-central1" |}.
Proof. intros H. by rw /read_config (load_env_file_missing _ _ H). Qed.

Lemma read_config_region_environ (w : World) (environ' : gmap string string) :
  region (read_config (mkWorld (fs w) environ' (boto3_client_impl w)))
  = region (read_config w).
Proof. done. Qed.

Lemma missing_required (w : World) (key : string) :
  key ∈ Spec.required_keys →
  Spec.missing (load_env_file (fs w) default_env_path !! key) →
  Spec.missing (getenv w key) →
  Py.all [access_key (read_config w); secret_key (read_config w);
          bucket_name (read_config w)] = false.
Proof.
  intros Hk Hf He. rw /Spec.required_keys !elem_of_cons elem_of_nil in Hk.
  rw /read_config /Py.all /=.
  destruct Hk as [-> | [-> | [-> | []]]];
    rw (or_missing _ _ Hf) (truthy_missing _ He) /=;
    by rw ?andb_false_r.
Qed.

(** ** The two operations *)

Ltac run :=
  rw /try_with /boto3_client /upload_file /head_bucket /print /sys_exit
     /mbind /M_bind /bind /mret /M_ret /ret /=.

Lemma upload_to_s3_unconfigured (w : World) (file_path s3_prefix : string) :
  Py.all [access_key (read_config w); secret_key (read_config w);
          bucket_name (read_config w)] = false →
  upload_to_s3 w file_path s3_prefix
  = ([Print "ERROR: S3 credentials not configured in .env"], inr false).
Proof. intros H. by rw /upload_to_s3 H. Qed.

Lemma test_s3_connection_unconfigured (w : World) :
  Py.all [access_key (read_config w); secret_key (read_config w);
          bucket_name (read_config w)] = false →
  test_s3_connection w
  = ([Print "ERROR: S3 credentials not configured"], inr false).
Proof. intros H. by rw /test_s3_connection H. Qed.

(** C3: when one of the three required keys is missing or empty in the file
    and in the environment both, either operation prints its error and
    returns [False] at once: the trace holds that one line, so no client was
    made and nothing was asked of the store. *)
Theorem unconfigured_fails_at_once (w : World) (key : string) :
  key ∈ Spec.required_keys →
  Spec.missing (load_env_file (fs w) default_env_path !! key) →
  Spec.missing (getenv w key) →
  (∀ file_path s3_prefix,
     upload_to_s3 w file_path s3_prefix
     = ([Print "ERROR: S3 credentials not configured in .env"], inr false))
  ∧ test_s3_connection w
    = ([Print "ERROR: S3 credentials not configured"], inr false).
Proof.
  intros Hk Hf He. pose proof (missing_required w key Hk Hf He) as Hall.
  split; [intros; by apply upload_to_s3_unconfigured|].
  by apply test_s3_connection_unconfigured.
Qed.

Lemma unconfigured_fails_at_once_witness :
  (∀ file_path s3_prefix,
     upload_to_s3 w_no_bucket file_path s3_prefix
     = ([Print "ERROR: S3 credentials not configured in .env"], inr false))
  ∧ test_s3_connection w_no_bucket
    = ([Print "ERROR: S3 credentials not configured"], inr false).
Proof.
  apply (unconfigured_fails_at_once w_no_bucket "S3_BUCKET_NAME").
  - rw /Spec.required_keys. do 2 apply list_elem_of_further. apply list_elem_of_here.
  - left. vm_compute. reflexivity.
  - right. vm_compute. reflexivity.
Defined.



Example test_s3_connection_403 :
  test_s3_connection (w_file (head_error_client "403"))
  = ([Boto3Client "s3" (Some "AK") (Some "SK") None "ru-central1";
      HeadBucket (Some "backups");
      Print "ERROR: Access denied to bucket 'backups'"], inr false).
Proof. vm_compute. reflexivity. Qed.

Example test_s3_connection_500 :
  test_s3_connection (w_file (head_error_client "500"))
  = ([Boto3Client "s3" (Some "AK") (Some "SK") None "ru-central1";
      HeadBucket (Some "backups");
      Print "ERROR: S3 connection failed: An error occurred (500)"], inr false).
Proof. vm_compute. reflexivity. Qed.

(** The upload that goes through: its trace and its result. *)
Lemma upload_to_s3_success (w : World) (c : S3Client)
    (file_path s3_prefix : string) :
  let cfg := read_config w in
  let s3_key := s3_prefix +:+ Py.path_name file_path in
  Py.all [access_key cfg; secret_key cfg; bucket_name cfg] = true →
  boto3_client_impl w "s3" (access_key cfg) (secret_key cfg) (endpoint_url cfg)
    (region cfg) = inr c →
  upload_file_impl c file_path (bucket_name cfg) s3_key
    [("StorageClass", "STANDARD")] = None →
  upload_to_s3 w file_path s3_prefix
  = ([Boto3Client "s3" (access_key cfg) (secret_key cfg) (endpoint_url cfg)
        (region cfg);
      Print ("Uploading " +:+ Py.path_name file_path +:+ " to s3://"
             +:+ Py.fmt (bucket_name cfg) +:+ "/" +:+ s3_key +:+ "...");
      UploadFile file_path (bucket_name cfg) s3_key
        [("StorageClass", "STANDARD")];
      Print ("✅ Upload successful: s3://" +:+ Py.fmt (bucket_name cfg)
             +:+ "/" +:+ s3_key)],
     inr true).
Proof.
  intros cfg s3_key Hall Hc Hu. rw /upload_to_s3. fold cfg. rw Hall. run.
  fold cfg. rw Hc /=. fold s3_key. by rw Hu.
Qed.

(** C5: an upload that returns [True] has sent the file under the prefix
    followed by the name of the path, whatever the path and the prefix: the
    trace holds one [upload_file] call, with that key.  The name is the last
    component of the path; it is the text after the last slash where that
    text is a name. *)
Theorem upload_key (w : World) (file_path s3_prefix : string)
    (trace : list event) :
  upload_to_s3 w file_path s3_prefix = (trace, inr true) →
  let cfg := read_config w in
  let s3_key := s3_prefix +:+ Py.path_name file_path in
  trace
  = [Boto3Client "s3" (access_key cfg) (secret_key cfg) (endpoint_url cfg)
       (region cfg);
     Print ("Uploading " +:+ Py.path_name file_path +:+ " to s3://"
            +:+ Py.fmt (bucket_name cfg) +:+ "/" +:+ s3_key +:+ "...");
     UploadFile file_path (bucket_name cfg) s3_key
       [("StorageClass", "STANDARD")];
     Print ("✅ Upload successful: s3://" +:+ Py.fmt (bucket_name cfg)
            +:+ "/" +:+ s3_key)]
  ∧ (Py.is_part (Spec.basename file_path) = true →
     s3_key = s3_prefix +:+ Spec.basename file_path).
Proof.
  intros Hrun cfg s3_key. split; [|intros Hp; by rw /s3_key path_name_basename].
  revert Hrun. rw /upload_to_s3. fold cfg.
  destruct (Py.all _); [|by run]. run. fold cfg.
  destruct (boto3_client_impl _ _ _ _ _ _) as [e|c]; [done|]. simpl.
  destruct (upload_file_impl _ _ _ _ _) as [[]|]; simpl; intros Hrun;
    by simplify_eq.
Qed.

Lemma upload_key_witness :
  upload_to_s3 (w_file ok_client) "/tmp/backup.tar.gz" "daily/"
  = ([Boto3Client "s3" (Some "AK") (Some "SK") None "ru-central1";
      Print "Uploading backup.tar.gz to s3://backups/daily/backup.tar.gz...";
      UploadFile "/tmp/backup.tar.gz" (Some "backups") "daily/backup.tar.gz"
        [("StorageClass", "STANDARD")];
      Print "✅ Upload successful: s3://backups/daily/backup.tar.gz"],
     inr true)
  ∧ (Py.is_part (Spec.basename "/tmp/backup.tar.gz") = true →
     "daily/backup.tar.gz" = "daily/" +:+ Spec.basename "/tmp/backup.tar.gz").
Proof.
  split; [vm_compute; reflexivity|].
  apply (upload_key (w_file ok_client) "/tmp/backup.tar.gz" "daily/"
           (upload_to_s3 (w_file ok_client) "/tmp/backup.tar.gz" "daily/").1).
  vm_compute. reflexivity.
Defined.

Example upload_key_ex :
  upload_to_s3 (w_file ok_client) "/tmp/backup.tar.gz" "daily/"
  = ([Boto3Client "s3" (Some "AK") (Some "SK") None "ru-central1";
      Print "Uploading backup.tar.gz to s3://backups/daily/backup.tar.gz...";
      UploadFile "/tmp/backup.tar.gz" (Some "backups") "daily/backup.tar.gz"
        [("StorageClass", "STANDARD")];
      Print "✅ Upload successful: s3://backups/daily/backup.tar.gz"],
     inr true).
Proof. vm_compute. reflexivity. Qed.

Example upload_key_default_prefix :
  (upload_to_s3 (w_file ok_client) "backup.tar.gz" "").1 !! 2%nat
  = Some (UploadFile "backup.tar.gz" (Some "backups") "backup.tar.gz"
            [("StorageClass", "STANDARD")]).
Proof. vm_compute. reflexivity. Qed.

(** The errors [upload_to_s3] catches: a client that cannot be made, and a
    file that is missing, credentials that are refused or a [ClientError]
    during the upload.  Each is printed and the operation returns [False]. *)
Lemma upload_to_s3_caught (w : World) (file_path s3_prefix : string) :
  let cfg := read_config w in
  let s3_key := s3_prefix +:+ Py.path_name file_path in
  Py.all [access_key cfg; secret_key cfg; bucket_name cfg] = true →
  (∀ e, boto3_client_impl w "s3" (access_key cfg) (secret_key cfg)
          (endpoint_url cfg) (region cfg) = inl e →
        upload_to_s3 w file_path s3_prefix
        = ([Boto3Client "s3" (access_key cfg) (secret_key cfg)
              (endpoint_url cfg) (region cfg);
            Print ("ERROR: Failed to create S3 client: " +:+ str e)],
           inr false))
  ∧ (∀ c e, boto3_client_impl w "s3" (access_key cfg) (secret_key cfg)
              (endpoint_url cfg) (region cfg) = inr c →
            upload_file_impl c file_path (bucket_name cfg) s3_key
              [("StorageClass", "STANDARD")] = Some e →
            (∀ cls msg, e ≠ OtherException cls msg) →
            ∃ line, (upload_to_s3 w file_path s3_prefix).2 = inr false
                    ∧ List.last (upload_to_s3 w file_path s3_prefix).1
                        (Print "") = Print line).
Proof.
  intros cfg s3_key Hall. split.
  - intros e He. rw /upload_to_s3. fold cfg. rw Hall. run. fold cfg. by rw He.
  - intros c e Hc Hu Hne. rw /upload_to_s3. fold cfg. rw Hall. run. fold cfg.
    rw Hc /=. fold s3_key. rw Hu.
    destruct e; simpl; eauto. by destruct (Hne class_name msg).
Qed.

(** An exception leaves [upload_to_s3] only from [upload_file], and only when
    it is none of the three that are named after the upload. *)
Lemma upload_to_s3_raises (w : World) (file_path s3_prefix : string)
    (trace : list event) (e : exn) :
  upload_to_s3 w file_path s3_prefix = (trace, inl e) →
  (∃ cls msg, e = OtherException cls msg)
  ∧ ∃ bucket key extra, List.last trace (Print "")
                        = UploadFile file_path bucket key extra.
Proof.
  rw /upload_to_s3. destruct (Py.all _); [|by run]. run.
  destruct (boto3_client_impl _ _ _ _ _ _) as [e'|c]; [done|]. simpl.
  destruct (upload_file_impl _ _ _ _ _) as [[]|]; simpl; intros Hrun;
    simplify_eq. eauto 10.
Qed.

(** [test_s3_connection] never raises. *)
Lemma test_s3_connection_returns (w : World) :
  ∃ b, (test_s3_connection w).2 = inr b.
Proof.
  rw /test_s3_connection. destruct (Py.all _); [|by run; eauto]. run.
  destruct (boto3_client_impl _ _ _ _ _ _) as [e|c]; simpl.
  - destruct e; simpl; eauto.
    by repeat (case_bool_decide; simpl; eauto).
  - destruct (head_bucket_impl _ _) as [e|]; simpl; eauto.
    destruct e; simpl; eauto.
    by repeat (case_bool_decide; simpl; eauto).
Qed.

(** C2, on the code: an exception of [upload_file] that is none of
    [FileNotFoundError], [NoCredentialsError] and [ClientError] is not caught
    by [upload_to_s3] and reaches its caller; here the store cannot be
    reached.  [test_s3_connection] catches the same exception and returns
    [False]. *)
Theorem upload_to_s3_lets_exception_through :
  upload_to_s3 (w_file (failing_client endpoint_connection_error))
    "/tmp/backup.tar.gz" "daily/"
  = ([Boto3Client "s3" (Some "AK") (Some "SK") None "ru-central1";
      Print "Uploading backup.tar.gz to s3://backups/daily/backup.tar.gz...";
      UploadFile "/tmp/backup.tar.gz" (Some "backups") "daily/backup.tar.gz"
        [("StorageClass", "STANDARD")]],
     inl endpoint_connection_error)
  ∧ test_s3_connection (w_file (failing_client endpoint_connection_error))
    = ([Boto3Client "s3" (Some "AK") (Some "SK") None "ru-central1";
        HeadBucket (Some "backups");
        Print "ERROR: Failed to connect to S3: Could not connect to the endpoint URL"],
       inr false).
Proof. split; vm_compute; reflexivity. Qed.

(** C1, on the code: with no [S3_REGION] in the file (here no file at all)
    and [S3_REGION=us-east-1] in the environment, both operations make their
    client for the region [ru-central1]; the other keys come from the
    environment. *)
Theorem region_not_read_from_environ :
  load_env_file (fs w_environ_only) default_env_path !! "S3_REGION" = None
  ∧ getenv w_environ_only "S3_REGION" = Some "us-east-1"
  ∧ region (read_config w_environ_only) = "ru-central1"
  ∧ upload_to_s3 w_environ_only "/tmp/backup.tar.gz" ""
    = ([Boto3Client "s3" (Some "AK") (Some "SK") None "ru-central1";
        Print "Uploading backup.tar.gz to s3://backups/backup.tar.gz...";
        UploadFile "/tmp/backup.tar.gz" (Some "backups") "backup.tar.gz"
          [("StorageClass", "STANDARD")];
        Print "✅ Upload successful: s3://backups/backup.tar.gz"],
       inr true)
  ∧ test_s3_connection w_environ_only
    = ([Boto3Client "s3" (Some "AK") (Some "SK") None "ru-central1";
        HeadBucket (Some "backups");
        Print "✅ S3 connection successful: bucket 'backups' is accessible"],
       inr true).
Proof. repeat split; vm_compute; reflexivity. Qed.

(** C7, on the code: where the config file does not exist the loader
    returns the empty mapping and raises nothing, and the callers read the
    access key, the secret key, the bucket name and the endpoint from the
    environment; the region they do not: it is [ru-central1] whatever
    [S3_REGION] is in the environment. *)
Theorem missing_file_config :
  fs w_environ_only !! default_env_path = None
  ∧ load_env_file (fs w_environ_only) default_env_path = ∅
  ∧ access_key (read_config w_environ_only)
    = getenv w_environ_only "S3_ACCESS_KEY_ID"
  ∧ secret_key (read_config w_environ_only)
    = getenv w_environ_only "S3_SECRET_ACCESS_KEY"
  ∧ bucket_name (read_config w_environ_only)
    = getenv w_environ_only "S3_BUCKET_NAME"
  ∧ endpoint_url (read_config w_environ_only)
    = getenv w_environ_only "S3_ENDPOINT_URL"
  ∧ getenv w_environ_only "S3_REGION" = Some "us-east-1"
  ∧ Some (region (read_config w_environ_only)) ≠ getenv w_environ_only "S3_REGION".
Proof. repeat split; try (vm_compute; reflexivity). vm_compute. discriminate. Qed.

(** ** The command line *)

(** [test_s3_connection] asks for no upload. *)
Lemma test_s3_connection_no_upload (w : World) :
  Forall (λ ev, Spec.is_upload ev = false) (test_s3_connection w).1.
Proof.
  rw /test_s3_connection. destruct (Py.all _); [|run; by repeat constructor].
  run. destruct (boto3_client_impl _ _ _ _ _ _) as [e|c]; simpl.
  - destruct e; simpl; repeat case_bool_decide; simpl; by repeat constructor.
  - destruct (head_bucket_impl _ _) as [e|]; simpl; [|by repeat constructor].
    destruct e; simpl; repeat case_bool_decide; simpl; by repeat constructor.
Qed.

Lemma main_no_argument (w : World) (argv : list string) :
  (length argv < 2)%nat →
  main w argv
  = ([Print "Usage: s3_upload.py <file_path> [s3_prefix]";
      Print "       s3_upload.py --test"], inr 1%Z).
Proof.
  intros Hl. rw /main. by destruct argv as [|? [|? ?]]; [..|simpl in Hl; lia].
Qed.

Lemma main_dispatched (w : World) (a0 a1 : string) (rest : list string) :
  main w (a0 :: a1 :: rest)
  = (success ← (if bool_decide (a1 = "--test") then test_s3_connection w
                else upload_to_s3 w a1 (hd "" rest));
     sys_exit (if success : bool then 0%Z else 1%Z)).
Proof.
  rw /main /=. case_bool_decide; [done|]. by destruct rest.
Qed.

(** What [main] does with an operation to run: its trace, and the status
    from its result. *)
Lemma main_operation (w : World) (a0 a1 : string) (rest : list string) :
  let op := if bool_decide (a1 = "--test") then test_s3_connection w
            else upload_to_s3 w a1 (hd "" rest) in
  (main w (a0 :: a1 :: rest)).1 = op.1
  ∧ exit_status (main w (a0 :: a1 :: rest)).2
    = (if Spec.succeeded op then 0 else 1)%Z.
Proof.
  rw main_dispatched. run.
  destruct (if bool_decide (a1 = "--test") then _ else _) as [t [e|[]]];
    simpl; by rw ?app_nil_r.
Qed.

(** C8: whatever the arguments, the process ends with status 0 exactly when
    the operation the command line asks for returns [True], and with status
    1 otherwise; what [main] does is what that operation does.  Without
    argument no operation is run: the two usage lines are printed and the
    status is 1. *)
Theorem exit_status_of_main (w : World) (argv : list string) :
  match Spec.dispatched w argv with
  | Some op =>
      (main w argv).1 = op.1
      ∧ exit_status (main w argv).2 = (if Spec.succeeded op then 0 else 1)%Z
  | None =>
      main w argv
      = ([Print "Usage: s3_upload.py <file_path> [s3_prefix]";
          Print "       s3_upload.py --test"], inr 1%Z)
      ∧ exit_status (main w argv).2 = 1%Z
  end.
Proof.
  destruct argv as [|a0 [|a1 rest]]; [done..|].
  pose proof (main_operation w a0 a1 rest) as Hop.
  rw /Spec.dispatched. by case_bool_decide.
Qed.

Example exit_status_ex :
  exit_status (main (w_file ok_client) ["s3_upload.py"; "/tmp/b.tar.gz"]).2 = 0%Z
  ∧ exit_status (main (w_file ok_client) ["s3_upload.py"; "/tmp/b.tar.gz"; "daily/"]).2 = 0%Z
  ∧ exit_status (main (w_file ok_client) ["s3_upload.py"; "--test"]).2 = 0%Z
  ∧ exit_status (main w_no_bucket ["s3_upload.py"; "--test"]).2 = 1%Z
  ∧ exit_status (main w_no_bucket ["s3_upload.py"; "/tmp/b.tar.gz"]).2 = 1%Z
  ∧ exit_status (main (w_file ok_client) ["s3_upload.py"]).2 = 1%Z.
Proof. repeat split; vm_compute; reflexivity. Qed.

(** [upload_to_s3] asks for the upload of its own path only. *)
Lemma upload_to_s3_path (w : World) (file_path s3_prefix path : string) :
  file_path ≠ path →
  Forall (λ ev, Spec.uploads_path path ev = false)
    (upload_to_s3 w file_path s3_prefix).1.
Proof.
  intros Hne. rw /upload_to_s3. destruct (Py.all _); [|run; by repeat constructor].
  run. destruct (boto3_client_impl _ _ _ _ _ _) as [e|c]; simpl;
    [by repeat constructor|].
  assert (bool_decide (file_path = path) = false) as Hb
    by by apply bool_decide_eq_false.
  destruct (upload_file_impl _ _ _ _ _) as [[]|]; simpl;
    repeat constructor; by rw /= ?Hb.
Qed.

Lemma is_upload_path (path : string) (ev : event) :
  Spec.is_upload ev = false → Spec.uploads_path path ev = false.
Proof. by destruct ev. Qed.

(** C10, amended: when the first argument is [--test], [main] runs the
    connectivity test, whatever follows on the command line: its trace is the
    one of [test_s3_connection], its status follows the result of the test,
    and no [upload_file] call is made.  So no command line has a file
    uploaded whose path is given as [--test]. *)
Theorem test_flag_never_uploads (w : World) (argv : list string) :
  argv !! 1%nat = Some "--test" →
  (main w argv).1 = (test_s3_connection w).1
  ∧ exit_status (main w argv).2
    = (if Spec.succeeded (test_s3_connection w) then 0 else 1)%Z
  ∧ Forall (λ ev, Spec.is_upload ev = false) (main w argv).1
  ∧ ∀ argv', Forall (λ ev, Spec.uploads_path "--test" ev = false)
               (main w argv').1.
Proof.
  intros Ha. destruct argv as [|a0 [|a1 rest]]; [done..|].
  simpl in Ha. injection Ha as ->.
  pose proof (main_operation w a0 "--test" rest) as [Ht Hs].
  rw bool_decide_true in Ht Hs; [done|].
  split; [done|]. split; [done|].
  split; [rw Ht; apply test_s3_connection_no_upload|].
  intros [|b0 [|b1 rest']]; [by repeat constructor..|].
  pose proof (main_operation w b0 b1 rest') as [Ht' _]. rw Ht'.
  case_bool_decide.
  - eapply Forall_impl; [apply test_s3_connection_no_upload|].
    intros ev. apply is_upload_path.
  - by apply upload_to_s3_path.
Qed.

Lemma test_flag_never_uploads_witness :
  (main (w_file ok_client) ["s3_upload.py"; "--test"; "daily/"]).1
  = (test_s3_connection (w_file ok_client)).1
  ∧ exit_status (main (w_file ok_client) ["s3_upload.py"; "--test"; "daily/"]).2
    = (if Spec.succeeded (test_s3_connection (w_file ok_client)) then 0 else 1)%Z
  ∧ Forall (λ ev, Spec.is_upload ev = false)
      (main (w_file ok_client) ["s3_upload.py"; "--test"; "daily/"]).1
  ∧ ∀ argv', Forall (λ ev, Spec.uploads_path "--test" ev = false)
               (main (w_file ok_client) argv').1.
Proof.
  apply (test_flag_never_uploads (w_file ok_client)
           ["s3_upload.py"; "--test"; "daily/"]).
  reflexivity.
Defined.

(** A path such as [./--test] is not the flag: it is uploaded. *)
Example dot_slash_test_uploads :
  main (w_file ok_client) ["s3_upload.py"; "./--test"]
  = ([Boto3Client "s3" (Some "AK") (Some "SK") None "ru-central1";
      Print "Uploading --test to s3://backups/--test...";
      UploadFile "./--test" (Some "backups") "--test"
        [("StorageClass", "STANDARD")];
      Print "✅ Upload successful: s3://backups/--test"],
     inr 0%Z).
Proof. vm_compute. reflexivity. Qed.

(** * Further properties *)

(** ** More on strings *)

Lemma contains_app (c : ascii) (s t : string) :
  Spec.contains c (s +:+ t) = Spec.contains c s || Spec.contains c t.
Proof.
  induction s as [|d s IH]; [done|]. by rw str_app_cons /= IH orb_assoc.
Qed.

Lemma contains_lstrip (c : ascii) (s : string) :
  Spec.contains c s = false → Spec.contains c (Py.lstrip s) = false.
Proof.
  induction s as [|d s IH]; [done|]. simpl. intros [Hd Hs]%orb_false_elim.
  destruct (Py.isspace d); [by apply IH|]. by rw /= Hd Hs.
Qed.

Lemma contains_rstrip (c : ascii) (s : string) :
  Spec.contains c s = false → Spec.contains c (Py.rstrip s) = false.
Proof.
  induction s as [|d s IH]; [done|]. simpl. intros [Hd Hs]%orb_false_elim.
  destruct (_ && _); [done|]. by rw /= Hd (IH Hs).
Qed.

Lemma contains_strip (c : ascii) (s : string) :
  Spec.contains c s = false → Spec.contains c (Py.strip s) = false.
Proof. intros H. by apply contains_rstrip, contains_lstrip. Qed.

Lemma contains_before_first (c sep : ascii) (s : string) :
  Spec.contains c s = false → Spec.contains c (Spec.before_first sep s) = false.
Proof.
  induction s as [|d s IH]; [done|]. simpl. intros [Hd Hs]%orb_false_elim.
  destruct (bool_decide (d = sep)); [done|]. by rw /= Hd (IH Hs).
Qed.

Lemma contains_after_first (c sep : ascii) (s : string) :
  Spec.contains c s = false → Spec.contains c (Spec.after_first sep s) = false.
Proof.
  induction s as [|d s IH]; [done|]. simpl. intros [Hd Hs]%orb_false_elim.
  destruct (bool_decide (d = sep)); [done|]. by apply IH.
Qed.

(** What stands before the first separator does not hold it. *)
Lemma before_first_free (sep : ascii) (s : string) :
  Spec.contains sep (Spec.before_first sep s) = false.
Proof.
  induction s as [|d s IH]; [done|]. simpl.
  destruct (bool_decide (d = sep)) eqn:Hd; [done|]. by rw /= IH Hd.
Qed.

Lemma lstrip_blank (b : string) : Spec.blank b = true → Py.lstrip b = "".
Proof.
  induction b as [|c b IH]; [done|]. simpl. intros [Hc Hb]%andb_prop.
  by rw Hc IH.
Qed.

Lemma rstrip_blank (b : string) : Spec.blank b = true → Py.rstrip b = "".
Proof.
  induction b as [|c b IH]; [done|]. simpl. intros [Hc Hb]%andb_prop.
  by rw Hc (IH Hb).
Qed.

Lemma lstrip_app (s b : string) :
  Py.lstrip (s +:+ b)
  = match Py.lstrip s with
    | EmptyString => Py.lstrip b
    | String _ _ => Py.lstrip s +:+ b
    end.
Proof.
  induction s as [|c s IH]; [reflexivity|].
  rw str_app_cons /=. by destruct (Py.isspace c).
Qed.

Lemma rstrip_app_blank (s b : string) :
  Spec.blank b = true → Py.rstrip (s +:+ b) = Py.rstrip s.
Proof.
  intros Hb. induction s as [|c s IH]; [by apply rstrip_blank|].
  by rw str_app_cons /= IH.
Qed.

(** Whitespace after a line, such as its line feed, does not change what
    [strip] leaves. *)
Lemma strip_app_blank (s b : string) :
  Spec.blank b = true → Py.strip (s +:+ b) = Py.strip s.
Proof.
  intros Hb. rw /Py.strip lstrip_app.
  destruct (Py.lstrip s) as [|c t] eqn:Hs.
  - by rw (lstrip_blank _ Hb).
  - by rw -Hs rstrip_app_blank.
Qed.

Lemma rstrip_trimmed (s : string) (d : ascii) :
  Spec.last_char s = Some d → Py.isspace d = false → Py.rstrip s = s.
Proof.
  induction s as [|c s IH]; [done|]. intros Hl Hd.
  destruct s as [|c' s'].
  - simpl in *. simplify_eq. by rw Hd.
  - change (Spec.last_char (String c (String c' s')))
      with (Spec.last_char (String c' s')) in Hl.
    change (Py.rstrip (String c (String c' s')))
      with (let r := Py.rstrip (String c' s') in
            if Py.isspace c && negb (Py.nonempty r) then "" else String c r).
    rw (IH Hl Hd) /=. by rw andb_false_r.
Qed.

(** A trimmed string is left as it is. *)
Lemma strip_trimmed (s : string) :
  Shape.is_trimmed s = true → Py.strip s = s.
Proof.
  destruct s as [|c s]; [done|]. rw /Shape.is_trimmed /Py.strip.
  intros [Hc Hl]%andb_prop. apply negb_true_iff in Hc.
  rw (lstrip_id c s Hc).
  destruct (Spec.last_char (String c s)) as [d|] eqn:Hd; [|done].
  apply negb_true_iff in Hl. by apply (rstrip_trimmed _ d).
Qed.

Lemma last_char_app (s t : string) :
  t ≠ "" → Spec.last_char (s +:+ t) = Spec.last_char t.
Proof.
  intros Ht. induction s as [|c s IH]; [done|]. rw str_app_cons.
  destruct (s +:+ t) as [|d u] eqn:Hu; [|done].
  destruct s, t; done.
Qed.

(** The first character of what [strip] leaves is no whitespace. *)
Lemma strip_head (s : string) :
  match Py.strip s with
  | EmptyString => True
  | String c _ => Py.isspace c = false
  end.
Proof.
  destruct (strip_spec s) as [_ Ht].
  destruct (Py.strip s); [done|]. by destruct Ht.
Qed.

(** ** More on the lines of a file *)

Lemma line_free_elim (s : string) :
  Shape.line_free s = true →
  Spec.contains "010" s = false ∧ Spec.contains "013" s = false.
Proof.
  rw /Shape.line_free. intros [H1 H2]%andb_prop.
  by apply negb_true_iff in H1, H2.
Qed.

Lemma readlines_line_crlf (l rest : string) :
  Spec.contains "010" l = false → Spec.contains "013" l = false →
  Py.readlines (l +:+ Shape.crlf +:+ rest) = (l +:+ nl) :: Py.readlines rest.
Proof.
  induction l as [|c l IH]; [done|]. simpl.
  intros [Hc1 Hl1]%orb_false_elim [Hc2 Hl2]%orb_false_elim.
  rw !str_app_cons /= Hc1 Hc2. by rw (IH Hl1 Hl2).
Qed.

(** Lines closed by a line feed, or by carriage return and line feed, are
    read one by one, each with a single line feed at its end. *)
Lemma readlines_join (t : string) (bodies : list string) :
  t = nl ∨ t = Shape.crlf →
  Forall (λ b, Shape.line_free b = true) bodies →
  Py.readlines (Shape.join_lines t bodies) = (λ b, b +:+ nl) <$> bodies.
Proof.
  intros Ht Hb. induction Hb as [|b bodies [H1 H2]%line_free_elim _ IH];
    [done|].
  change (Shape.join_lines t (b :: bodies))
    with (b +:+ t +:+ Shape.join_lines t bodies).
  rw fmap_cons -IH. destruct Ht as [-> | ->].
  - by apply readlines_line.
  - by apply readlines_line_crlf.
Qed.

Lemma readlines_not_nil (c : ascii) (s : string) :
  Py.readlines (String c s) ≠ [].
Proof.
  simpl. repeat case_bool_decide; [done| |by destruct (Py.readlines s)].
  by destruct s as [|[[] [] [] [] [] [] [] []] ?].
Qed.

(** After a line feed the file starts anew: the lines of the whole are the
    lines of the two parts. *)
Lemma readlines_app_nl (a b : string) :
  Py.readlines ((a +:+ nl) +:+ b) = Py.readlines (a +:+ nl) ++ Py.readlines b.
Proof.
  induction a as [|c a IH]; [done|].
  rw !str_app_cons.
  change (Py.readlines (String c ((a +:+ nl) +:+ b)))
    with (if bool_decide (c = "010"%char)
          then nl :: Py.readlines ((a +:+ nl) +:+ b)
          else if bool_decide (c = "013"%char) then
                 match (a +:+ nl) +:+ b with
                 | String "010" s'' => nl :: Py.readlines s''
                 | _ => nl :: Py.readlines ((a +:+ nl) +:+ b)
                 end
               else match Py.readlines ((a +:+ nl) +:+ b) with
                    | [] => [String c ""]
                    | l :: ls => String c l :: ls
                    end).
  change (Py.readlines (String c (a +:+ nl)))
    with (if bool_decide (c = "010"%char)
          then nl :: Py.readlines (a +:+ nl)
          else if bool_decide (c = "013"%char) then
                 match a +:+ nl with
                 | String "010" s'' => nl :: Py.readlines s''
                 | _ => nl :: Py.readlines (a +:+ nl)
                 end
               else match Py.readlines (a +:+ nl) with
                    | [] => [String c ""]
                    | l :: ls => String c l :: ls
                    end).
  destruct (bool_decide (c = "010"%char)); [by rw IH|].
  destruct (bool_decide (c = "013"%char)).
  - destruct a as [|d a]; [done|]. rw !str_app_cons. rw !str_app_cons in IH.
    destruct (bool_decide (d = "010"%char)) eqn:Hd.
    + apply bool_decide_eq_true in Hd. subst d.
      simpl in IH. injection IH as IH. by rw IH.
    + assert (∀ (X : list string) u,
                match String d u with
                | String "010" s'' => nl :: Py.readlines s''
                | _ => X
                end = X) as Hm.
      { intros X u. apply bool_decide_eq_false in Hd.
        by destruct d as [[] [] [] [] [] [] [] []]. }
      by rw !Hm IH.
  - rw IH.
    destruct (Py.readlines (a +:+ nl)) eqn:Hr; [|done].
    exfalso. destruct a; [done|]. rw str_app_cons in Hr.
    by apply readlines_not_nil in Hr.
Qed.

(** Every line read is a text without line break, with or without a line
    feed at its end. *)
Lemma readlines_shape (s : string) :
  Forall (λ l, ∃ body, Shape.line_free body = true
                       ∧ (l = body ∨ l = body +:+ nl))
    (Py.readlines s).
Proof.
  assert (∃ body, Shape.line_free body = true ∧ (nl = body ∨ nl = body +:+ nl))
    as Hnl by (exists ""; eauto).
  induction s as [|c s IH]; [constructor|]. simpl.
  destruct (bool_decide (c = "010"%char)) eqn:H10; [by constructor|].
  destruct (bool_decide (c = "013"%char)) eqn:H13.
  - destruct s as [|d s]; [by constructor|].
    destruct (bool_decide (d = "010"%char)) eqn:Hd.
    + apply bool_decide_eq_true in Hd. subst d.
      simpl in IH. by inversion IH.
    + assert (∀ (X : list string),
                match String d s with
                | String "010" s'' => nl :: Py.readlines s''
                | _ => X
                end = X) as Hm.
      { intros X. apply bool_decide_eq_false in Hd.
        by destruct d as [[] [] [] [] [] [] [] []]. }
      rw Hm. by constructor.
  - assert (∀ body, Shape.line_free body = true →
                    Shape.line_free (String c body) = true) as Hc.
    { intros body Hb. rw /Shape.line_free /= H10 H13 /=. exact Hb. }
    destruct (Py.readlines s) as [|l ls].
    + constructor; [|constructor]. exists (String c "").
      split; [by apply Hc|by left].
    + inversion IH as [|? ? (body & Hb & Hl) Hls]; subst.
      constructor; [|done]. exists (String c body). split; [by apply Hc|].
      destruct Hl as [-> | ->]; [by left|by right].
Qed.

(** ** More on the configuration loader *)

Lemma mapping_app (before after : list string) :
  Spec.mapping (before ++ after) = Spec.mapping after ∪ Spec.mapping before.
Proof.
  by rw /Spec.mapping omap_app reverse_app list_to_map_app.
Qed.

Lemma mapping_cons (line : string) (after : list string) :
  Spec.mapping (line :: after)
  = Spec.mapping after ∪ match Spec.entry line with
                         | Some (k, v) => {[ k := v ]}
                         | None => ∅
                         end.
Proof.
  rw (mapping_app [line] after). f_equal. rw /Spec.mapping /=.
  destruct (Spec.entry line) as [[k v]|]; [|done].
  by rw /= insert_empty.
Qed.

Lemma foldl_process_line_from (m : gmap string string) (lines : list string) :
  foldl process_line m lines = Spec.mapping lines ∪ m.
Proof.
  induction lines as [|line lines IH] using rev_ind.
  - by rw /Spec.mapping /= (left_id_L ∅ (∪)).
  - rw foldl_snoc IH process_line_entry mapping_app mapping_cons.
    rw {2}/Spec.mapping /= (left_id_L ∅ (∪)).
    destruct (Spec.entry line) as [[k v]|].
    + by rw insert_union_singleton_l assoc_L.
    + by rw (left_id_L ∅ (∪)).
Qed.

Lemma mapping_lookup_None (lines : list string) (k : string) :
  Forall (λ l, Shape.key_of l ≠ Some k) lines →
  Spec.mapping lines !! k = None.
Proof.
  intros Hall. apply eq_None_not_Some. intros [v Hv].
  apply mapping_lookup in Hv as (line & Hin & He).
  rw Forall_forall in Hall. apply (Hall line Hin). by rw /Shape.key_of He.
Qed.

(** X1: of the lines of a file that give one key, the last one stands: a
    line with an entry for [k], followed only by lines that give other keys
    or none, binds [k] to its value whatever stood before. *)
Theorem load_env_file_last_wins
    (fs : gmap string string) (path content : string)
    (before after : list string) (line k v : string) :
  fs !! path = Some content →
  Py.readlines content = before ++ line :: after →
  Spec.entry line = Some (k, v) →
  Forall (λ l, Shape.key_of l ≠ Some k) after →
  load_env_file fs path !! k = Some v.
Proof.
  intros Hf Hl He Ha.
  rw (load_env_file_exists _ _ _ Hf) Hl mapping_app mapping_cons He.
  rw -assoc_L lookup_union_r; [by apply mapping_lookup_None|].
  by rw -insert_union_singleton_l lookup_insert_eq.
Qed.

Lemma load_env_file_last_wins_witness :
  load_env_file {[ default_env_path := twice_text ]} default_env_path !! "A"
  = Some "2".
Proof.
  apply (load_env_file_last_wins {[ default_env_path := twice_text ]}
           default_env_path twice_text ["A=1" +:+ nl] ["B=3" +:+ nl]
           ("A=2" +:+ nl) "A" "2").
  - vm_compute. reflexivity.
  - vm_compute. reflexivity.
  - vm_compute. reflexivity.
  - repeat constructor. vm_compute. discriminate.
Defined.

Lemma entry_of_entry_line (kv : string * string) :
  Shape.good_entry kv = true →
  Spec.entry (Shape.entry_line kv +:+ nl) = Some kv.
Proof.
  destruct kv as [k v]. rw /Shape.good_entry /Shape.good_key /Shape.good_value /=.
  intros [[[[[Hne Htk]%andb_prop Hc]%andb_prop He]%andb_prop Hlk]%andb_prop
            [Htv Hlv]%andb_prop]%andb_prop.
  apply negb_true_iff in Hc, He.
  assert (Shape.is_trimmed (k +:+ String "=" v) = true) as Ht.
  { destruct k as [|c k]; [done|]. rw str_app_cons /Shape.is_trimmed.
    rw /Shape.is_trimmed in Htk. apply andb_prop in Htk as [Hck _].
    rw Hck andb_true_l -str_app_cons last_char_app; [done|].
    destruct v as [|d v]; [done|].
    rw /Shape.is_trimmed in Htv. apply andb_prop in Htv as [_ Hv].
    change (Spec.last_char (String "=" (String d v)))
      with (Spec.last_char (String d v)). exact Hv. }
  assert (Py.strip (Shape.entry_line (k, v) +:+ nl) = k +:+ String "=" v) as Hs.
  { rw strip_app_blank; [done|]. by apply strip_trimmed. }
  rw (entry_key_value _ k v); [|done..| by rw (strip_trimmed _ Htk) (strip_trimmed _ Htv)].
  rw /Spec.skipped Hs. destruct k as [|c k]; [done|].
  rw str_app_cons /=. simpl in Hc. exact Hc.
Qed.

Lemma entry_line_free (kv : string * string) :
  Shape.good_entry kv = true → Shape.line_free (Shape.entry_line kv) = true.
Proof.
  destruct kv as [k v]. rw /Shape.good_entry /Shape.good_key /Shape.good_value /=.
  intros [[_ [Hk1 Hk2]%line_free_elim]%andb_prop
            [_ [Hv1 Hv2]%line_free_elim]%andb_prop]%andb_prop.
  rw /Shape.line_free /Shape.entry_line /= !contains_app /= Hk1 Hk2 Hv1 Hv2.
  done.
Qed.

(** X2: a file written as one [KEY=VALUE] line per entry, with keys and
    values as one writes them (trimmed, on one line, the key not empty,
    without [=] and not starting with [#]), is read back as these entries,
    the later one standing where a key comes twice. *)
Theorem load_env_file_render
    (fs : gmap string string) (path : string)
    (entries : list (string * string)) :
  fs !! path = Some (Shape.render entries) →
  Forall (λ kv, Shape.good_entry kv = true) entries →
  load_env_file fs path = list_to_map (reverse entries).
Proof.
  intros Hf Hg. rw (load_env_file_exists _ _ _ Hf) /Shape.render.
  rw readlines_join; [by left| |].
  { apply Forall_fmap. eapply Forall_impl; [exact Hg|].
    intros kv Hkv. by apply entry_line_free. }
  rw /Spec.mapping. do 2 f_equal.
  clear Hf. induction Hg as [|kv entries Hkv _ IH]; [done|].
  simpl. rw (entry_of_entry_line _ Hkv). f_equal. exact IH.
Qed.

Lemma load_env_file_render_witness :
  load_env_file
    {[ default_env_path :=
         Shape.render [("S3_BUCKET_NAME", "backups"); ("S3_REGION", "us-west-1");
                       ("NOTE", "a=b # kept")] ]}
    default_env_path
  = list_to_map (reverse [("S3_BUCKET_NAME", "backups");
                          ("S3_REGION", "us-west-1"); ("NOTE", "a=b # kept")]).
Proof.
  apply load_env_file_render.
  - vm_compute. reflexivity.
  - repeat constructor.
Defined.

Lemma entry_key_shape (line k v : string) :
  Spec.entry line = Some (k, v) →
  Spec.trimmed k ∧ Spec.trimmed v
  ∧ Spec.contains "=" k = false ∧ Py.startswith "#" k = false.
Proof.
  rw /Spec.entry /Spec.skipped.
  destruct (Py.nonempty (Py.strip line)) eqn:Hne; [|done].
  destruct (Py.startswith "#" (Py.strip line)) eqn:Hc; [done|]. simpl.
  intros [= <- <-].
  split; [apply strip_spec|]. split; [apply strip_spec|].
  split; [apply contains_strip, before_first_free|].
  pose proof (strip_head line) as Hh.
  destruct (Py.strip line) as [|c t]; [done|]. simpl.
  destruct (bool_decide (c = "="%char)); [done|].
  rw /Py.strip (lstrip_id c _ Hh) (rstrip_head c _ Hh). exact Hc.
Qed.

(** X3: whatever the file holds, the keys and values of the mapping it
    gives are trimmed, and no key holds [=] or starts with [#]. *)
Theorem load_env_file_entries_shape
    (fs : gmap string string) (path k v : string) :
  load_env_file fs path !! k = Some v →
  Spec.trimmed k ∧ Spec.trimmed v
  ∧ Spec.contains "=" k = false ∧ Py.startswith "#" k = false.
Proof.
  rw /load_env_file. destruct (fs !! path) as [content|]; [|done].
  rw foldl_process_line. intros (line & _ & He)%mapping_lookup.
  by apply (entry_key_shape line).
Qed.

Lemma load_env_file_entries_shape_witness :
  Spec.trimmed "S3_ACCESS_KEY_ID" ∧ Spec.trimmed "AK"
  ∧ Spec.contains "=" "S3_ACCESS_KEY_ID" = false
  ∧ Py.startswith "#" "S3_ACCESS_KEY_ID" = false.
Proof.
  apply (load_env_file_entries_shape {[ default_env_path := env_text ]}
           default_env_path).
  vm_compute. reflexivity.
Defined.

(** X4: a file of blank lines and comment lines only gives the empty
    mapping, as a file that does not exist does. *)
Theorem load_env_file_comments_only
    (fs : gmap string string) (path content : string) :
  fs !! path = Some content →
  Forall (λ l, Spec.skipped l = true) (Py.readlines content) →
  load_env_file fs path = ∅.
Proof.
  intros Hf Hs. rw (load_env_file_exists _ _ _ Hf) /Spec.mapping.
  induction Hs as [|l ls Hl _ IH]; [done|].
  by rw /= /Spec.entry Hl.
Qed.

Lemma load_env_file_comments_only_witness :
  load_env_file
    {[ default_env_path := "# storage" +:+ nl +:+ "   " +:+ nl +:+ nl +:+ "#A=1" ]}
    default_env_path = ∅.
Proof.
  apply (load_env_file_comments_only _ _
           ("# storage" +:+ nl +:+ "   " +:+ nl +:+ nl +:+ "#A=1")).
  - vm_compute. reflexivity.
  - repeat constructor.
Defined.

(** X5: lines added after a file that ends with a line feed are read on top
    of what the file gave: a key the new lines do not give keeps its value,
    and no key is lost. *)
Theorem load_env_file_append
    (fs fs' : gmap string string) (path old new : string) :
  fs !! path = Some (old +:+ nl) →
  fs' !! path = Some ((old +:+ nl) +:+ new) →
  load_env_file fs' path
  = foldl process_line (load_env_file fs path) (Py.readlines new)
  ∧ dom (load_env_file fs path) ⊆ dom (load_env_file fs' path)
  ∧ ∀ k, Forall (λ l, Shape.key_of l ≠ Some k) (Py.readlines new) →
         load_env_file fs' path !! k = load_env_file fs path !! k.
Proof.
  intros Hf Hf'.
  rw (load_env_file_exists _ _ _ Hf') (load_env_file_exists _ _ _ Hf).
  rw readlines_app_nl mapping_app foldl_process_line_from.
  split; [done|]. split.
  - rw dom_union_L. set_solver.
  - intros k Hk. by rw lookup_union_r; [apply mapping_lookup_None|].
Qed.

Lemma load_env_file_append_witness :
  load_env_file {[ default_env_path := (env_text +:+ nl) +:+ "S3_REGION=us-west-1" ]}
    default_env_path
  = foldl process_line
      (load_env_file {[ default_env_path := env_text +:+ nl ]} default_env_path)
      (Py.readlines "S3_REGION=us-west-1")
  ∧ dom (load_env_file {[ default_env_path := env_text +:+ nl ]} default_env_path)
    ⊆ dom (load_env_file
             {[ default_env_path := (env_text +:+ nl) +:+ "S3_REGION=us-west-1" ]}
             default_env_path)
  ∧ ∀ k, Forall (λ l, Shape.key_of l ≠ Some k) (Py.readlines "S3_REGION=us-west-1") →
         load_env_file
           {[ default_env_path := (env_text +:+ nl) +:+ "S3_REGION=us-west-1" ]}
           default_env_path !! k
         = load_env_file {[ default_env_path := env_text +:+ nl ]}
             default_env_path !! k.
Proof.
  apply (load_env_file_append {[ default_env_path := env_text +:+ nl ]}
           {[ default_env_path := (env_text +:+ nl) +:+ "S3_REGION=us-west-1" ]}
           default_env_path env_text "S3_REGION=us-west-1").
  - vm_compute. reflexivity.
  - vm_compute. reflexivity.
Defined.

(** X6: a file whose lines end with carriage return and line feed gives the
    mapping of the same lines ended by a line feed alone. *)
Theorem load_env_file_crlf
    (fs fs' : gmap string string) (path : string) (bodies : list string) :
  Forall (λ b, Shape.line_free b = true) bodies →
  fs !! path = Some (Shape.join_lines Shape.crlf bodies) →
  fs' !! path = Some (Shape.join_lines nl bodies) →
  load_env_file fs path = load_env_file fs' path.
Proof.
  intros Hb Hf Hf'.
  rw (load_env_file_exists _ _ _ Hf) (load_env_file_exists _ _ _ Hf').
  by rw !readlines_join; [right|done|left|done|].
Qed.

Lemma load_env_file_crlf_witness :
  load_env_file
    {[ default_env_path :=
         Shape.join_lines Shape.crlf ["# storage"; "S3_BUCKET_NAME = backups"; ""] ]}
    default_env_path
  = load_env_file
      {[ default_env_path :=
           Shape.join_lines nl ["# storage"; "S3_BUCKET_NAME = backups"; ""] ]}
      default_env_path.
Proof.
  apply (load_env_file_crlf _ _ _ ["# storage"; "S3_BUCKET_NAME = backups"; ""]).
  - repeat constructor.
  - vm_compute. reflexivity.
  - vm_compute. reflexivity.
Defined.

Lemma line_free_intro (s : string) :
  Spec.contains "010" s = false → Spec.contains "013" s = false →
  Shape.line_free s = true.
Proof. intros H1 H2. by rw /Shape.line_free H1 H2. Qed.

Lemma entry_line_break (line k v : string) (c : ascii) :
  Spec.contains c (Py.strip line) = false →
  Spec.entry line = Some (k, v) →
  Spec.contains c k = false ∧ Spec.contains c v = false.
Proof.
  intros Hc. rw /Spec.entry. destruct (Spec.skipped line); [done|].
  intros [= <- <-]. split.
  - by apply contains_strip, contains_before_first.
  - by apply contains_strip, contains_after_first.
Qed.

(** X7: no key and no value of the mapping holds a line feed or a carriage
    return: an entry never runs over the end of its line. *)
Theorem load_env_file_one_line
    (fs : gmap string string) (path k v : string) :
  load_env_file fs path !! k = Some v →
  Shape.line_free k = true ∧ Shape.line_free v = true.
Proof.
  rw /load_env_file. destruct (fs !! path) as [content|]; [|done].
  rw foldl_process_line. intros (line & Hin & He)%mapping_lookup.
  pose proof (readlines_shape content) as Hsh. rw Forall_forall in Hsh.
  destruct (Hsh line Hin) as (body & [H1 H2]%line_free_elim & Hl).
  assert (Py.strip line = Py.strip body) as Hs.
  { destruct Hl as [-> | ->]; [done|]. by apply strip_app_blank. }
  destruct (entry_line_break line k v "010") as [Hk1 Hv1];
    [rw Hs; by apply contains_strip|done|].
  destruct (entry_line_break line k v "013") as [Hk2 Hv2];
    [rw Hs; by apply contains_strip|done|].
  split; by apply line_free_intro.
Qed.

Lemma load_env_file_one_line_witness :
  Shape.line_free "S3_BUCKET_NAME" = true ∧ Shape.line_free "backups" = true.
Proof.
  apply (load_env_file_one_line
           {[ default_env_path :=
                Shape.join_lines Shape.crlf ["S3_BUCKET_NAME = backups"] ]}
           default_env_path).
  vm_compute. reflexivity.
Defined.

(** ** More on configuration resolution *)

Lemma or_nonempty (v : string) (b : option string) :
  v ≠ "" → Py.or_ (Some v) b = Some v.
Proof. by destruct v. Qed.

(** X8: for the access key, the secret key, the bucket name and the
    endpoint, a value of the file that is not empty stands, whatever the
    environment holds for the same name. *)
Theorem read_config_file_first (w : World) (key v : string) :
  load_env_file (fs w) default_env_path !! key = Some v →
  v ≠ "" →
  (key = "S3_ACCESS_KEY_ID" → access_key (read_config w) = Some v)
  ∧ (key = "S3_SECRET_ACCESS_KEY" → secret_key (read_config w) = Some v)
  ∧ (key = "S3_BUCKET_NAME" → bucket_name (read_config w) = Some v)
  ∧ (key = "S3_ENDPOINT_URL" → endpoint_url (read_config w) = Some v).
Proof.
  intros Hf Hv. rw /read_config /=.
  repeat split; intros ->; by rw Hf or_nonempty.
Qed.

Lemma read_config_file_first_witness :
  (("S3_BUCKET_NAME" : string) = "S3_ACCESS_KEY_ID" →
     access_key (read_config w_both) = Some "backups")
  ∧ (("S3_BUCKET_NAME" : string) = "S3_SECRET_ACCESS_KEY" →
     secret_key (read_config w_both) = Some "backups")
  ∧ (("S3_BUCKET_NAME" : string) = "S3_BUCKET_NAME" →
     bucket_name (read_config w_both) = Some "backups")
  ∧ (("S3_BUCKET_NAME" : string) = "S3_ENDPOINT_URL" →
     endpoint_url (read_config w_both) = Some "backups").
Proof.
  apply (read_config_file_first w_both "S3_BUCKET_NAME" "backups").
  - vm_compute. reflexivity.
  - discriminate.
Defined.

(** X9: a key that the file gives an empty value counts as absent for the
    access key, the secret key, the bucket name and the endpoint, which are
    then read from the environment; the region does not: whatever value the
    file gives it, empty or not, is the region, and the default is not
    used. *)
Theorem read_config_empty_value (w : World) (key : string) :
  load_env_file (fs w) default_env_path !! key = Some "" →
  (key = "S3_ACCESS_KEY_ID" → access_key (read_config w) = getenv w key)
  ∧ (key = "S3_SECRET_ACCESS_KEY" → secret_key (read_config w) = getenv w key)
  ∧ (key = "S3_BUCKET_NAME" → bucket_name (read_config w) = getenv w key)
  ∧ (key = "S3_ENDPOINT_URL" → endpoint_url (read_config w) = getenv w key)
  ∧ (key = "S3_REGION" → region (read_config w) = "").
Proof.
  intros Hf. rw /read_config /=. repeat split; intros ->; by rw Hf.
Qed.

Lemma read_config_empty_value_witness :
  (("S3_REGION" : string) = "S3_ACCESS_KEY_ID" →
     access_key (read_config w_empty_values) = getenv w_empty_values "S3_REGION")
  ∧ (("S3_REGION" : string) = "S3_SECRET_ACCESS_KEY" →
     secret_key (read_config w_empty_values) = getenv w_empty_values "S3_REGION")
  ∧ (("S3_REGION" : string) = "S3_BUCKET_NAME" →
     bucket_name (read_config w_empty_values) = getenv w_empty_values "S3_REGION")
  ∧ (("S3_REGION" : string) = "S3_ENDPOINT_URL" →
     endpoint_url (read_config w_empty_values) = getenv w_empty_values "S3_REGION")
  ∧ (("S3_REGION" : string) = "S3_REGION" →
     region (read_config w_empty_values) = "").
Proof.
  apply (read_config_empty_value w_empty_values "S3_REGION").
  vm_compute. reflexivity.
Defined.

Example read_config_empty_values_ex :
  read_config w_empty_values
  = {| access_key := Some "AK"; secret_key := Some "SK";
       bucket_name := Some "backups"; endpoint_url := None; region := "" |}.
Proof. vm_compute. reflexivity. Qed.

(** The region of the file stands, as the other keys of the file do. *)
Example read_config_both_ex :
  read_config w_both
  = {| access_key := Some "AK"; secret_key := Some "SK";
       bucket_name := Some "backups";
       endpoint_url := Some "https://storage.example";
       region := "us-west-1" |}.
Proof. vm_compute. reflexivity. Qed.

(** ** More on the two operations *)

(** X10: either operation makes a client exactly when the access key, the
    secret key and the bucket name are all there and not empty; the client
    is then the first thing it does, with the endpoint and the region as
    resolved, be the endpoint absent. *)
Theorem client_made_iff_configured (w : World) (file_path s3_prefix : string) :
  let cfg := read_config w in
  let made (trace : list event) :=
    hd_error trace
    = Some (Boto3Client "s3" (access_key cfg) (secret_key cfg)
              (endpoint_url cfg) (region cfg)) in
  (Shape.configured w = true ↔ made (upload_to_s3 w file_path s3_prefix).1)
  ∧ (Shape.configured w = true ↔ made (test_s3_connection w).1)
  ∧ (Shape.configured w = false →
     Shape.count Shape.is_client (upload_to_s3 w file_path s3_prefix).1 = 0%nat
     ∧ Shape.count Shape.is_client (test_s3_connection w).1 = 0%nat).
Proof.
  intros cfg made. rw /made /Shape.configured /upload_to_s3 /test_s3_connection.
  fold cfg. destruct (Py.all _) eqn:Hall; run.
  - split; [|split; [|done]].
    + split; [intros _|done].
      destruct (boto3_client_impl _ _ _ _ _ _) as [e|c]; [done|]. simpl.
      by destruct (upload_file_impl _ _ _ _ _) as [[]|].
    + split; [intros _|done].
      destruct (boto3_client_impl _ _ _ _ _ _) as [e|c]; simpl.
      * destruct e; simpl; by repeat case_bool_decide.
      * destruct (head_bucket_impl _ _) as [e|]; [|done].
        destruct e; simpl; by repeat case_bool_decide.
  - split; [by split|]. split; [by split|done].
Qed.

(** X11: [upload_to_s3] returns [True] only when the three required values
    are there, the client was made and [upload_file] returned without
    raising: it never tells a success the store did not grant. *)
Theorem upload_to_s3_true_only_when (w : World) (file_path s3_prefix : string) :
  (upload_to_s3 w file_path s3_prefix).2 = inr true →
  let cfg := read_config w in
  Shape.configured w = true
  ∧ ∃ c, boto3_client_impl w "s3" (access_key cfg) (secret_key cfg)
           (endpoint_url cfg) (region cfg) = inr c
         ∧ upload_file_impl c file_path (bucket_name cfg)
             (s3_prefix +:+ Py.path_name file_path)
             [("StorageClass", "STANDARD")] = None.
Proof.
  intros Hrun cfg. revert Hrun. rw /Shape.configured /upload_to_s3. fold cfg.
  destruct (Py.all _); run; [|done].
  destruct (boto3_client_impl _ _ _ _ _ _) as [e|c]; [done|]. simpl.
  destruct (upload_file_impl _ _ _ _ _) as [e|] eqn:Hu; [by destruct e|].
  intros _. split; [done|]. by exists c.
Qed.

Lemma upload_to_s3_true_only_when_witness :
  Shape.configured (w_file ok_client) = true
  ∧ ∃ c, boto3_client_impl (w_file ok_client) "s3" (Some "AK") (Some "SK") None
           "ru-central1" = inr c
         ∧ upload_file_impl c "/tmp/backup.tar.gz" (Some "backups")
             "daily/backup.tar.gz" [("StorageClass", "STANDARD")] = None.
Proof.
  apply (upload_to_s3_true_only_when (w_file ok_client) "/tmp/backup.tar.gz"
           "daily/").
  vm_compute. reflexivity.
Defined.

(** X12: the line [upload_to_s3] prints for each error of [upload_file] it
    catches, after the line that announces the upload: the path for a file
    that is not found (not the text of the exception), a fixed line for
    refused credentials, the text of the error for a [ClientError].  It
    returns [False] each time. *)
Theorem upload_to_s3_error_lines
    (w : World) (c : S3Client) (file_path s3_prefix : string) (e : exn) :
  let cfg := read_config w in
  let s3_key := s3_prefix +:+ Py.path_name file_path in
  let run line :=
    upload_to_s3 w file_path s3_prefix
    = ([Boto3Client "s3" (access_key cfg) (secret_key cfg) (endpoint_url cfg)
          (region cfg);
        Print ("Uploading " +:+ Py.path_name file_path +:+ " to s3://"
               +:+ Py.fmt (bucket_name cfg) +:+ "/" +:+ s3_key +:+ "...");
        UploadFile file_path (bucket_name cfg) s3_key
          [("StorageClass", "STANDARD")];
        Print line], inr false) in
  Shape.configured w = true →
  boto3_client_impl w "s3" (access_key cfg) (secret_key cfg) (endpoint_url cfg)
    (region cfg) = inr c →
  upload_file_impl c file_path (bucket_name cfg) s3_key
    [("StorageClass", "STANDARD")] = Some e →
  (∀ msg, e = FileNotFoundError msg →
          run ("ERROR: File not found: " +:+ file_path))
  ∧ (∀ msg, e = NoCredentialsError msg → run "ERROR: Invalid S3 credentials")
  ∧ (∀ response msg, e = ClientError response msg →
                     run ("ERROR: S3 upload failed: " +:+ msg)).
Proof.
  intros cfg s3_key run0 Hall Hc Hu. rw /run0 /upload_to_s3. fold cfg.
  rw /Shape.configured in Hall. fold cfg in Hall. rw Hall. run. fold cfg.
  rw Hc /=. fold s3_key. rw Hu.
  repeat split; intros; by subst e.
Qed.

Lemma upload_to_s3_error_lines_witness :
  upload_to_s3 (w_file (failing_client (FileNotFoundError "[Errno 2]")))
    "/tmp/gone.tar.gz" "daily/"
  = ([Boto3Client "s3" (Some "AK") (Some "SK") None "ru-central1";
      Print "Uploading gone.tar.gz to s3://backups/daily/gone.tar.gz...";
      UploadFile "/tmp/gone.tar.gz" (Some "backups") "daily/gone.tar.gz"
        [("StorageClass", "STANDARD")];
      Print "ERROR: File not found: /tmp/gone.tar.gz"], inr false).
Proof.
  destruct (upload_to_s3_error_lines
              (w_file (failing_client (FileNotFoundError "[Errno 2]")))
              (failing_client (FileNotFoundError "[Errno 2]"))
              "/tmp/gone.tar.gz" "daily/" (FileNotFoundError "[Errno 2]"))
    as (Hnf & _).
  - vm_compute. reflexivity.
  - vm_compute. reflexivity.
  - vm_compute. reflexivity.
  - exact (Hnf "[Errno 2]" eq_refl).
Defined.

(** X13: when [boto3.client] raises, of whatever class the exception is
    (a [ClientError] or a [FileNotFoundError] too), [upload_to_s3] prints
    that the client could not be made, with the text of the exception,
    returns [False] and asks for no upload. *)
Theorem upload_to_s3_no_client
    (w : World) (file_path s3_prefix : string) (e : exn) :
  let cfg := read_config w in
  Shape.configured w = true →
  boto3_client_impl w "s3" (access_key cfg) (secret_key cfg) (endpoint_url cfg)
    (region cfg) = inl e →
  upload_to_s3 w file_path s3_prefix
  = ([Boto3Client "s3" (access_key cfg) (secret_key cfg) (endpoint_url cfg)
        (region cfg);
      Print ("ERROR: Failed to create S3 client: " +:+ str e)], inr false).
Proof.
  intros cfg Hall He. rw /upload_to_s3. fold cfg.
  rw /Shape.configured in Hall. fold cfg in Hall. rw Hall. run. fold cfg.
  by rw He.
Qed.

Lemma upload_to_s3_no_client_witness :
  upload_to_s3 (w_no_client (ClientError ∅ "Invalid endpoint"))
    "/tmp/backup.tar.gz" ""
  = ([Boto3Client "s3" (Some "AK") (Some "SK") None "ru-central1";
      Print "ERROR: Failed to create S3 client: Invalid endpoint"], inr false).
Proof.
  apply (upload_to_s3_no_client (w_no_client (ClientError ∅ "Invalid endpoint"))
           "/tmp/backup.tar.gz" "" (ClientError ∅ "Invalid endpoint")).
  - vm_compute. reflexivity.
  - vm_compute. reflexivity.
Defined.

(** X14: whatever the world, one call of [upload_to_s3] makes at most one
    client and asks at most once for an upload (no second try), never for a
    bucket check; the upload it asks for is the one of its own path, into the
    resolved bucket, under the prefix followed by the name of the path, with
    the storage class [STANDARD]. *)
Theorem upload_to_s3_footprint (w : World) (file_path s3_prefix : string) :
  let trace := (upload_to_s3 w file_path s3_prefix).1 in
  (Shape.count Shape.is_client trace ≤ 1)%nat
  ∧ (Shape.count Spec.is_upload trace ≤ 1)%nat
  ∧ Shape.count Shape.is_head trace = 0%nat
  ∧ Forall (λ ev, Spec.is_upload ev = true →
                  ev = UploadFile file_path (bucket_name (read_config w))
                         (s3_prefix +:+ Py.path_name file_path)
                         [("StorageClass", "STANDARD")]) trace.
Proof.
  rw /upload_to_s3. destruct (Py.all _); run;
    [|by repeat split; repeat constructor].
  destruct (boto3_client_impl _ _ _ _ _ _) as [e|c]; simpl;
    [by repeat split; repeat constructor|].
  destruct (upload_file_impl _ _ _ _ _) as [[]|]; simpl;
    repeat split; rw /Shape.count /=; try lia; by repeat constructor.
Qed.

Lemma split_slash_parts (p : string) :
  Forall (λ x, Spec.contains "/" x = false) (Py.split_slash p).
Proof.
  induction p as [|c p IH]; [by repeat constructor|]. simpl.
  destruct (bool_decide (c = "/"%char)) eqn:Hc; [by constructor|].
  destruct (Py.split_slash p) as [|x xs]; [by repeat constructor; rw /= Hc|].
  inversion IH; subst. constructor; [|done]. by rw /= Hc.
Qed.

Lemma last_filter_cases {A} (f : A → bool) (l : list A) (d : A) :
  List.last (List.filter f l) d = d
  ∨ (List.last (List.filter f l) d ∈ l
     ∧ f (List.last (List.filter f l) d) = true).
Proof.
  destruct (List.filter f l) as [|y k] eqn:Hk; [by left|]. right.
  assert (List.In (List.last (y :: k) d) (List.filter f l)) as Hin.
  { rw Hk. clear. revert y. induction k as [|z k IH]; intros y; [by left|].
    right. apply IH. }
  apply List.filter_In in Hin as [Hin Hf]. split; [|done].
  by apply list_elem_of_In.
Qed.

(** X15: the name [upload_to_s3] puts after the prefix holds no slash and
    is not [.]: of the local path only its last component goes into the key,
    and a slash at the end of the path does not change it. *)
Theorem upload_key_name (file_path : string) :
  Spec.contains "/" (Py.path_name file_path) = false
  ∧ Py.path_name file_path ≠ "."
  ∧ Py.path_name (file_path +:+ "/") = Py.path_name file_path.
Proof.
  rw /Py.path_name. split; [|split].
  - destruct (last_filter_cases Py.is_part (Py.split_slash file_path) "")
      as [-> | [Hin _]]; [done|].
    pose proof (split_slash_parts file_path) as Hp. rw Forall_forall in Hp.
    by apply Hp.
  - destruct (last_filter_cases Py.is_part (Py.split_slash file_path) "")
      as [-> | [_ Hf]]; [done|].
    intros Heq. by rw Heq in Hf.
  - rw split_slash_app List.filter_app /= app_nil_r. done.
Qed.

Example upload_key_name_ex :
  Py.path_name "/var/backups/2024/" = "2024"
  ∧ Py.path_name "./dump.tar.gz" = "dump.tar.gz"
  ∧ Py.path_name "/" = "".
Proof. repeat split; vm_compute; reflexivity. Qed.

(** X16: [test_s3_connection] returns [True] only when the three required
    values are there, the client was made and [head_bucket] returned without
    raising. *)
Theorem test_s3_connection_true_only_when (w : World) :
  (test_s3_connection w).2 = inr true →
  let cfg := read_config w in
  Shape.configured w = true
  ∧ ∃ c, boto3_client_impl w "s3" (access_key cfg) (secret_key cfg)
           (endpoint_url cfg) (region cfg) = inr c
         ∧ head_bucket_impl c (bucket_name cfg) = None.
Proof.
  intros Hrun cfg. revert Hrun. rw /Shape.configured /test_s3_connection.
  fold cfg. destruct (Py.all _); run; [|done].
  destruct (boto3_client_impl _ _ _ _ _ _) as [e|c]; simpl.
  { destruct e; simpl; by repeat case_bool_decide. }
  destruct (head_bucket_impl _ _) as [e|] eqn:Hh; simpl.
  { destruct e; simpl; by repeat case_bool_decide. }
  intros _. split; [done|]. by exists c.
Qed.

Lemma test_s3_connection_true_only_when_witness :
  Shape.configured (w_file ok_client) = true
  ∧ ∃ c, boto3_client_impl (w_file ok_client) "s3" (Some "AK") (Some "SK") None
           "ru-central1" = inr c
         ∧ head_bucket_impl c (Some "backups") = None.
Proof.
  apply (test_s3_connection_true_only_when (w_file ok_client)).
  vm_compute. reflexivity.
Defined.



Lemma error_code_unknown (response : gmap string (gmap string string)) :
  response !! "Error" = None
  ∨ (∃ d, response !! "Error" = Some d ∧ d !! "Code" = None) →
  error_code response = "Unknown".
Proof.
  rw /error_code. by intros [-> | (d & -> & Hd)]; [|rw /= Hd].
Qed.

(** X18: a [ClientError] whose response has no [Error] entry, or an [Error]
    entry without [Code], has the code [Unknown]: [test_s3_connection] then
    prints the line of a failed connection with the text of the error, and
    returns [False]. *)
Theorem head_bucket_error_without_code
    (w : World) (c : S3Client) (response : gmap string (gmap string string))
    (detail : string) :
  let cfg := read_config w in
  Shape.configured w = true →
  boto3_client_impl w "s3" (access_key cfg) (secret_key cfg) (endpoint_url cfg)
    (region cfg) = inr c →
  head_bucket_impl c (bucket_name cfg) = Some (ClientError response detail) →
  response !! "Error" = None
  ∨ (∃ d, response !! "Error" = Some d ∧ d !! "Code" = None) →
  test_s3_connection w
  = ([Boto3Client "s3" (access_key cfg) (secret_key cfg) (endpoint_url cfg)
        (region cfg);
      HeadBucket (bucket_name cfg);
      Print ("ERROR: S3 connection failed: " +:+ detail)], inr false).
Proof.
  intros cfg Hall Hc Hh Hr. rw /test_s3_connection. fold cfg.
  rw /Shape.configured in Hall. fold cfg in Hall. rw Hall. run. fold cfg.
  by rw Hc Hh /= (error_code_unknown _ Hr).
Qed.

Lemma head_bucket_error_without_code_witness :
  test_s3_connection
    (w_file (mkS3Client (λ _ _ _ _, None)
               (λ _, Some (ClientError {[ "Error" := ∅ ]} "no code"))))
  = ([Boto3Client "s3" (Some "AK") (Some "SK") None "ru-central1";
      HeadBucket (Some "backups");
      Print "ERROR: S3 connection failed: no code"], inr false).
Proof.
  apply (head_bucket_error_without_code
           (w_file (mkS3Client (λ _ _ _ _, None)
                      (λ _, Some (ClientError {[ "Error" := ∅ ]} "no code"))))
           (mkS3Client (λ _ _ _ _, None)
              (λ _, Some (ClientError {[ "Error" := ∅ ]} "no code")))
           {[ "Error" := ∅ ]} "no code").
  - vm_compute. reflexivity.
  - vm_compute. reflexivity.
  - vm_compute. reflexivity.
  - right. exists ∅. split; vm_compute; reflexivity.
Defined.

(** X19: whatever the world, one call of [test_s3_connection] makes at most
    one client and at most one bucket check, for the resolved bucket, and asks
    for no upload. *)
Theorem test_s3_connection_footprint (w : World) :
  let trace := (test_s3_connection w).1 in
  (Shape.count Shape.is_client trace ≤ 1)%nat
  ∧ (Shape.count Shape.is_head trace ≤ 1)%nat
  ∧ Shape.count Spec.is_upload trace = 0%nat
  ∧ Forall (λ ev, Shape.is_head ev = true →
                  ev = HeadBucket (bucket_name (read_config w))) trace.
Proof.
  rw /test_s3_connection /Shape.count. destruct (Py.all _); run;
    [|by repeat split; repeat constructor].
  destruct (boto3_client_impl _ _ _ _ _ _) as [e|c]; simpl.
  { destruct e; simpl; repeat case_bool_decide; simpl;
      repeat split; try lia; by repeat constructor. }
  destruct (head_bucket_impl _ _) as [e|]; simpl;
    [destruct e; simpl; repeat case_bool_decide; simpl|];
    repeat split; try lia; by repeat constructor.
Qed.

(** ** More on the command line *)

(** X20: the name of the program and the arguments after the second play no
    part: [main] does the same on any command line with the same first two
    arguments, and after [--test] even the second is ignored. *)
Theorem main_ignored_arguments
    (w : World) (a0 b0 a1 a2 : string) (rest : list string) :
  main w (a0 :: a1 :: a2 :: rest) = main w [b0; a1; a2]
  ∧ main w [a0; a1] = main w [b0; a1]
  ∧ main w [a0] = main w []
  ∧ main w (a0 :: "--test" :: a2 :: rest) = main w [b0; "--test"].
Proof.
  rw !main_dispatched /=. by repeat split.
Qed.

Lemma upload_to_s3_success_shape (w : World) (file_path s3_prefix : string) :
  (upload_to_s3 w file_path s3_prefix).2 = inr true →
  let trace := (upload_to_s3 w file_path s3_prefix).1 in
  (∃ line, last trace = Some (Print line) ∧ String.prefix "✅ " line = true)
  ∧ (Shape.count Spec.is_upload trace + Shape.count Shape.is_head trace = 1)%nat.
Proof.
  rw /upload_to_s3 /Shape.count. destruct (Py.all _); run; [|done].
  destruct (boto3_client_impl _ _ _ _ _ _) as [e|c]; [done|]. simpl.
  destruct (upload_file_impl _ _ _ _ _) as [[]|]; simpl; try done.
  intros _. split; [|done]. eexists. split; [reflexivity|]. reflexivity.
Qed.

Lemma test_s3_connection_success_shape (w : World) :
  (test_s3_connection w).2 = inr true →
  let trace := (test_s3_connection w).1 in
  (∃ line, last trace = Some (Print line) ∧ String.prefix "✅ " line = true)
  ∧ (Shape.count Spec.is_upload trace + Shape.count Shape.is_head trace = 1)%nat.
Proof.
  rw /test_s3_connection /Shape.count. destruct (Py.all _); run; [|done].
  destruct (boto3_client_impl _ _ _ _ _ _) as [e|c]; simpl.
  { destruct e; simpl; by repeat case_bool_decide. }
  destruct (head_bucket_impl _ _) as [e|]; simpl.
  { destruct e; simpl; by repeat case_bool_decide. }
  intros _. split; [|done]. eexists. split; reflexivity.
Qed.

(** X21: the status [main] ends with is 0 or 1, whatever the arguments and
    the world.  It is 0 only when the program left through [sys.exit(0)]
    after one call to the store, an upload or a bucket check, and with the
    success line as the last thing printed. *)
Theorem main_exit_zero (w : World) (argv : list string) :
  let trace := (main w argv).1 in
  (exit_status (main w argv).2 = 0%Z ∨ exit_status (main w argv).2 = 1%Z)
  ∧ (exit_status (main w argv).2 = 0%Z →
     (main w argv).2 = inr 0%Z
     ∧ (∃ line, last trace = Some (Print line) ∧ String.prefix "✅ " line = true)
     ∧ (Shape.count Spec.is_upload trace + Shape.count Shape.is_head trace
        = 1)%nat).
Proof.
  destruct argv as [|a0 [|a1 rest]]; [by split; [right|]..|].
  rw main_dispatched.
  set (op := if bool_decide (a1 = "--test") then test_s3_connection w
             else upload_to_s3 w a1 (hd "" rest)).
  assert (op.2 = inr true →
          (∃ line, last op.1 = Some (Print line)
                   ∧ String.prefix "✅ " line = true)
          ∧ (Shape.count Spec.is_upload op.1 + Shape.count Shape.is_head op.1
             = 1)%nat) as Hop.
  { rw /op. case_bool_decide.
    - apply test_s3_connection_success_shape.
    - apply upload_to_s3_success_shape. }
  run. destruct op as [t [e|[]]]; simpl in *.
  - by split; [right|].
  - rw app_nil_r. split; [by left|]. intros _. split; [done|]. by apply Hop.
  - by split; [right|].
Qed.

(** ** The loader, in the words of the specification *)

Lemma strip_trimmed_prop (t : string) : Spec.trimmed t → Py.strip t = t.
Proof.
  destruct t as [|c t]; [done|]. intros [Hc (d & Hd & Hs)].
  rw /Py.strip (lstrip_id c t Hc). by apply (rstrip_trimmed _ d).
Qed.

(** What [strip] leaves is the string trimmed, and nothing else is. *)
Lemma trim_of_strip (s t : string) : Shape.trim_of s t ↔ Py.strip s = t.
Proof.
  split.
  - intros [Ht (a & b & -> & Ha & Hb)].
    assert (Py.strip (a +:+ t +:+ b) = Py.strip (t +:+ b)) as ->.
    { by rw /Py.strip lstrip_app (lstrip_blank _ Ha). }
    by rw strip_app_blank; [|apply strip_trimmed_prop].
  - intros <-. destruct (strip_spec s) as [(a & b & Hs) Ht].
    split; [done|]. by exists a, b.
Qed.

Lemma before_after_first (sep : ascii) (t : string) :
  Spec.contains sep t = true →
  t = Spec.before_first sep t +:+ String sep (Spec.after_first sep t).
Proof.
  induction t as [|c t IH]; [done|]. simpl.
  destruct (bool_decide (c = sep)) eqn:Hc.
  - intros _. apply bool_decide_eq_true in Hc. by subst c.
  - simpl. intros Ht. by rw str_app_cons -IH.
Qed.

(** What stands before and after the first separator is the cut, and
    nothing else is. *)
Lemma cut_at_first (sep : ascii) (t k v : string) :
  Shape.cut_at sep t k v
  ↔ k = Spec.before_first sep t ∧ v = Spec.after_first sep t.
Proof.
  split.
  - intros [[Hk ->] | (Ht & -> & ->)].
    + pose proof (partition_split sep (k +:+ String sep v)) as Hp.
      rw (partition_found _ _ _ Hk) in Hp. by injection Hp as H1 _ H3.
    + pose proof (partition_split sep t) as Hp.
      rw (partition_not_found _ _ Ht) in Hp. by injection Hp as H1 _ H3.
  - intros [-> ->]. destruct (Spec.contains sep t) eqn:Ht.
    + left. split; [apply before_first_free|]. by apply before_after_first.
    + right. pose proof (partition_split sep t) as Hp.
      rw (partition_not_found _ _ Ht) in Hp. by injection Hp as H1 _ H3.
Qed.

(** The entry of a line, said without the string functions of the loader. *)
Lemma entry_in_words (line k v : string) :
  Spec.entry line = Some (k, v)
  ↔ ∃ t k0 v0, Shape.trim_of line t ∧ Py.nonempty t = true
               ∧ Py.startswith "#" t = false ∧ Shape.cut_at "=" t k0 v0
               ∧ Shape.trim_of k0 k ∧ Shape.trim_of v0 v.
Proof.
  rw /Spec.entry /Spec.skipped. split.
  - destruct (Py.nonempty (Py.strip line)) eqn:Hne; [|done].
    destruct (Py.startswith "#" (Py.strip line)) eqn:Hc; [done|]. simpl.
    intros [= <- <-].
    exists (Py.strip line), (Spec.before_first "=" (Py.strip line)),
      (Spec.after_first "=" (Py.strip line)).
    by rw !trim_of_strip cut_at_first.
  - intros (t & k0 & v0 & Ht%trim_of_strip & Hne & Hc
              & [-> ->]%cut_at_first & Hk%trim_of_strip & Hv%trim_of_strip).
    by rw Ht Hne Hc /= Hk Hv.
Qed.

Lemma skipped_in_words (line t : string) :
  Shape.trim_of line t →
  Spec.skipped line = true ↔ (t = "" ∨ Py.startswith "#" t = true).
Proof.
  intros <-%trim_of_strip. rw /Spec.skipped.
  destruct (Py.strip line); simpl; [by split; [left|]|].
  split; [by right|]. by intros [|].
Qed.

(** C6: the loader goes through the file line by line.  A line that, once
    trimmed of the whitespace around it, is empty or starts with [#] is
    skipped and leaves no entry: the mapping is the one of the file without
    it.  Every other line is cut at its first [=] and gives the entry of the
    trimmed key and the trimmed value: every entry of the mapping comes from
    such a line, and every such line has its key in the mapping.  The lines
    are those of the text of the file, one for each line feed. *)
Theorem load_env_file_line_by_line
    (fs : gmap string string) (path content : string) :
  fs !! path = Some content →
  let lines := Py.readlines content in
  load_env_file fs path = Spec.mapping lines
  ∧ (∀ bodies, Forall (λ b, Shape.line_free b = true) bodies →
       content = Shape.join_lines nl bodies →
       lines = (λ b, b +:+ nl) <$> bodies)
  ∧ (∀ k v, load_env_file fs path !! k = Some v →
       ∃ line t k0 v0,
         line ∈ lines ∧ Shape.trim_of line t ∧ Py.nonempty t = true
         ∧ Py.startswith "#" t = false ∧ Shape.cut_at "=" t k0 v0
         ∧ Shape.trim_of k0 k ∧ Shape.trim_of v0 v)
  ∧ (∀ line t k0 v0 k,
       line ∈ lines → Shape.trim_of line t → Py.nonempty t = true →
       Py.startswith "#" t = false → Shape.cut_at "=" t k0 v0 →
       Shape.trim_of k0 k →
       is_Some (load_env_file fs path !! k))
  ∧ (∀ before line after t,
       lines = before ++ line :: after → Shape.trim_of line t →
       t = "" ∨ Py.startswith "#" t = true →
       load_env_file fs path = foldl process_line ∅ (before ++ after)).
Proof.
  intros Hf lines. rw (load_env_file_exists _ _ _ Hf). fold lines.
  split; [done|]. split; [|split; [|split]].
  - intros bodies Hb ->. by apply readlines_join; [left|].
  - intros k v (line & Hin & He)%mapping_lookup.
    apply entry_in_words in He as (t & k0 & v0 & He). by exists line, t, k0, v0.
  - intros line t k0 v0 k Hin Ht Hne Hc Hcut Hk.
    apply (mapping_dom lines line k (Py.strip v0)); [done|].
    apply entry_in_words. exists t, k0, v0.
    by rw (trim_of_strip v0).
  - intros before line after t -> Ht Hs.
    rw foldl_process_line. apply mapping_skip.
    by apply (skipped_in_words line t).
Qed.

Lemma load_env_file_line_by_line_witness :
  load_env_file {[ default_env_path := env_text ]} default_env_path
  = {[ "S3_ACCESS_KEY_ID" := "AK"; "S3_SECRET_ACCESS_KEY" := "SK";
       "S3_BUCKET_NAME" := "backups" ]}
  ∧ Py.readlines env_text
    = ["# storage" +:+ nl; nl; "S3_ACCESS_KEY_ID = AK" +:+ nl;
       "S3_SECRET_ACCESS_KEY=SK" +:+ nl; "S3_BUCKET_NAME=backups" +:+ nl]
  ∧ load_env_file {[ default_env_path := env_text ]} default_env_path
    = foldl process_line ∅
        ["S3_ACCESS_KEY_ID = AK" +:+ nl; "S3_SECRET_ACCESS_KEY=SK" +:+ nl;
         "S3_BUCKET_NAME=backups" +:+ nl].
Proof.
  destruct (load_env_file_line_by_line {[ default_env_path := env_text ]}
              default_env_path env_text)
    as (Hmap & Hlines & _ & _ & Hskip).
  - vm_compute. reflexivity.
  - split; [|split].
    + rw Hmap. vm_compute. reflexivity.
    + apply (Hlines ["# storage"; ""; "S3_ACCESS_KEY_ID = AK";
                     "S3_SECRET_ACCESS_KEY=SK"; "S3_BUCKET_NAME=backups"]).
      * repeat constructor.
      * vm_compute. reflexivity.
    + rw (Hskip ["# storage" +:+ nl] nl
            ["S3_ACCESS_KEY_ID = AK" +:+ nl; "S3_SECRET_ACCESS_KEY=SK" +:+ nl;
             "S3_BUCKET_NAME=backups" +:+ nl] "").
      * vm_compute. reflexivity.
      * split; [done|]. exists nl, "". by repeat split.
      * by left.
      * vm_compute. reflexivity.
Defined.

(** C9: a line that, once trimmed, is not empty, does not start with [#]
    and holds no [=] is not skipped: the loop binds the whole trimmed line to
    the empty string.  The trimmed line is then a key of the mapping of any
    file that holds the line, bound to the empty string when the line is the
    last of the file. *)
Theorem line_without_equals_sign (line t : string) :
  Shape.trim_of line t →
  Py.nonempty t = true →
  Py.startswith "#" t = false →
  Spec.contains "=" t = false →
  (∀ env_vars, process_line env_vars line = <[t := ""]> env_vars)
  ∧ (∀ (fs : gmap string string) path content,
       fs !! path = Some content → line ∈ Py.readlines content →
       is_Some (load_env_file fs path !! t))
  ∧ (∀ (fs : gmap string string) path before body,
       line = body +:+ nl → Shape.line_free body = true →
       Forall (λ b, Shape.line_free b = true) before →
       fs !! path = Some (Shape.join_lines nl (before ++ [body])) →
       load_env_file fs path !! t = Some "").
Proof.
  intros Ht Hne Hc He.
  assert (Spec.entry line = Some (t, "")) as Hentry.
  { apply entry_in_words. exists t, t, "".
    split; [done|]. split; [done|]. split; [done|].
    split; [by right|]. rw !trim_of_strip.
    split; [|done]. apply trim_of_strip in Ht as <-. apply strip_idemp. }
  assert (∀ env_vars, process_line env_vars line = <[t := ""]> env_vars)
    as Hstep.
  { intros env_vars. by rw process_line_entry Hentry. }
  split; [done|]. split.
  - intros fs path content Hf Hin. rw (load_env_file_exists _ _ _ Hf).
    by apply (mapping_dom _ line t "").
  - intros fs path before body -> Hb Hbefore Hf.
    rw /load_env_file Hf readlines_join; [by left| |].
    { apply Forall_app. split; [done|]. by repeat constructor. }
    by rw fmap_app /= foldl_snoc Hstep lookup_insert_eq.
Qed.

Lemma line_without_equals_sign_witness :
  process_line {[ "A" := "1" ]} ("  JUNK " +:+ nl)
  = {[ "A" := "1"; "JUNK" := "" ]}
  ∧ load_env_file {[ default_env_path := "A=1" +:+ nl +:+ "  JUNK " +:+ nl ]}
      default_env_path !! "JUNK" = Some "".
Proof.
  destruct (line_without_equals_sign ("  JUNK " +:+ nl) "JUNK")
    as (Hstep & _ & Hlast).
  - split.
    + split; [reflexivity|]. exists "K"%char. split; reflexivity.
    + exists "  ", (" " +:+ nl). split; [|split]; reflexivity.
  - reflexivity.
  - reflexivity.
  - reflexivity.
  - split.
    + rw Hstep. vm_compute. reflexivity.
    + apply (Hlast _ _ ["A=1"] "  JUNK ").
      * reflexivity.
      * reflexivity.
      * repeat constructor.
      * vm_compute. reflexivity.
Defined.

(** C10, as the claim has it: a run of the command line in which the file
    named [--test] is uploaded.  Its path is given as [./--test], which is not
    the flag; [upload_to_s3] sends it under the key [--test]. *)
Lemma file_named_test_is_uploaded :
  ¬ (∀ (w : World) (argv : list string),
       Forall (λ ev, Shape.uploads_named "--test" ev = false) (main w argv).1).
Proof.
  intros H.
  specialize (H (w_file ok_client) ["s3_upload.py"; "./--test"]).
  rw Forall_forall in H.
  specialize (H (UploadFile "./--test" (Some "backups") "--test"
                   [("StorageClass", "STANDARD")])).
  assert (UploadFile "./--test" (Some "backups") "--test"
            [("StorageClass", "STANDARD")]
          ∈ (main (w_file ok_client) ["s3_upload.py"; "./--test"]).1) as Hin.
  { vm_compute. do 2 apply list_elem_of_further. apply list_elem_of_here. }
  specialize (H Hin). vm_compute in H. discriminate.
Qed.
